(** * Overtime clock: the session and earnings engine of [server.js]

    A shallow embedding of the server's pay calculator, limit validator,
    overtime tracker, session store and one-second scheduler, followed by
    the properties the specification states about them.

    Numbers are JavaScript numbers, that is IEEE 754 binary64 values, and
    are modelled by Rocq's primitive [float]: [*], [/], [+], [-], [<] and
    [<=] are the binary64 operations the interpreter performs.  Request
    fields that may be missing are [value]s.  Dates are their time value,
    an integer count of milliseconds.

    The server is single-threaded: a request handler or a firing of the
    scheduler runs to completion before the next one starts, so each is a
    function from the state of the two process-wide maps to the new state
    and what was sent.  The clock is not part of the state; every reading
    a handler takes ([Date.now()], [new Date()]) is an argument. *)

From Stdlib Require Import ZArith List String Bool Lia Floats.
From stdpp Require Import base option strings gmap pretty.
Import ListNotations.

Local Open Scope string_scope.

(** ** JavaScript values and coercions *)

Module Js.

(** The values a numeric request field takes: an absent field reads as
    [undefined], JSON has [null] and numbers. *)
Inductive value : Type :=
| VUndefined
| VNull
| VNum (x : float).

(** [ToBoolean] on a number: [0], [-0] and [NaN] are falsy. *)
Definition truthy_num (x : float) : bool :=
  negb (PrimFloat.eqb x 0%float || PrimFloat.is_nan x).

(** [ToBoolean]: [undefined] and [null] are falsy. *)
Definition truthy (v : value) : bool :=
  match v with
  | VUndefined | VNull => false
  | VNum x => truthy_num x
  end.

(** [ToBoolean] on a string: only the empty string is falsy. *)
Definition truthy_str (s : string) : bool :=
  negb (String.eqb s "").

(** [ToNumber]: [undefined] is [NaN], [null] is [+0]. *)
Definition ToNumber (v : value) : float :=
  match v with
  | VUndefined => PrimFloat.nan
  | VNull => 0%float
  | VNum x => x
  end.

(** [v || d] where [d] is a number: the result is always a number, because
    every non-number [value] is falsy. *)
Definition or_num (v : value) (d : float) : float :=
  match v with
  | VNum x => if truthy_num x then x else d
  | VUndefined | VNull => d
  end.

(** [v || null]. *)
Definition or_null (v : value) : value :=
  if truthy v then v else VNull.

(** The time value of a [Date] as a number.  Time values are integers of
    magnitude at most 8.64e15, which binary64 represents exactly. *)
Definition number_of_time (t : Z) : float :=
  SF2Prim (binary_normalize prec emax t 0 false).

(** [Number.prototype.toString] on an integral time value: its decimal
    digits, with a leading minus sign when negative. *)
Definition time_to_string (t : Z) : string := pretty t.

(** Two numbers denote the same quantity: they are the same binary64 value,
    or they compare equal with [==] (which identifies [-0] and [+0]). *)
Definition same_number (a b : float) : Prop :=
  a = b \/ PrimFloat.eqb a b = true.

End Js.

Export Js.

(** ** Static configuration *)

(** [OVERTIME_LIMITS], Labor Proclamation No. 1156/2019. *)
Module OVERTIME_LIMITS.
Definition MAX_HOURS_PER_DAY : float := 4%float.
Definition MAX_HOURS_PER_WEEK : float := 12%float.
Definition MAX_HOURS_PER_YEAR : float := 100%float.
End OVERTIME_LIMITS.

(** The own properties of the object literal [OVERTIME_MULTIPLIERS]. *)
Definition OVERTIME_MULTIPLIERS : list (string * float) :=
  [ ("normal", 1.5%float); ("night", 1.75%float);
    ("sunday", 2%float); ("holiday", 2.5%float) ].

(** An object literal inherits from [Object.prototype], so a bracket lookup
    with one of these names finds the inherited property instead of
    [undefined]: eleven built-in functions and, for [__proto__], the
    prototype object itself. *)
Definition Object_prototype_properties : list string :=
  [ "constructor"; "hasOwnProperty"; "isPrototypeOf"; "propertyIsEnumerable";
    "toLocaleString"; "toString"; "valueOf"; "__proto__";
    "__defineGetter__"; "__defineSetter__";
    "__lookupGetter__"; "__lookupSetter__" ].

(** What [OVERTIME_MULTIPLIERS[k] || 1.5] evaluates to: a number, or one of
    the inherited objects (all objects are truthy). *)
Inductive multiplier_value : Type :=
| MNum (x : float)
| MBuiltin.

(** [ToNumber] of a multiplier.  A built-in function or the prototype
    object converts through its string form, which is not numeric. *)
Definition multiplier_number (m : multiplier_value) : float :=
  match m with
  | MNum x => x
  | MBuiltin => PrimFloat.nan
  end.

Fixpoint own_property (k : string) (o : list (string * float)) : option float :=
  match o with
  | [] => None
  | (k', x) :: o' => if String.eqb k k' then Some x else own_property k o'
  end.

Definition inherited (k : string) : bool :=
  existsb (String.eqb k) Object_prototype_properties.

(** [OVERTIME_MULTIPLIERS[overtimeType] || 1.5]. *)
Definition lookup_multiplier (overtimeType : string) : multiplier_value :=
  match own_property overtimeType OVERTIME_MULTIPLIERS with
  | Some x => if truthy_num x then MNum x else MNum 1.5%float
  | None => if inherited overtimeType then MBuiltin else MNum 1.5%float
  end.

(** ** Limit validator *)

(** One entry of the server's [userOvertimeTracking] map. *)
Record Tracking : Type := mkTracking {
  weekly : float;
  yearly : float
}.

(** The literal [{ weekly: 0, yearly: 0 }] used when a user has no entry. *)
Definition zero_tracking : Tracking := mkTracking 0 0.

(** The advisory messages of [validateOvertimeHours].  The server renders
    each as a template string; the model keeps which message it is and the
    numbers interpolated into it (current total, candidate hours, new
    total), not the rendered digits. *)
Inductive warning : Type :=
| WarnDailyLimit
| WarnWeeklyLimit (current hours newTotal : float)
| WarnYearlyLimit (current hours newTotal : float)
| WarnNotSustainable.

Record Validation : Type := mkValidation {
  isValid : bool;
  errors : list string;
  warnings : list warning
}.

(** [userOvertimeTracking.get(userId) || { weekly: 0, yearly: 0 }]. *)
Definition tracking_of (tracking : gmap string Tracking) (userId : string)
  : Tracking :=
  default zero_tracking (tracking !! userId).

(** [validateOvertimeHours(hours, type, userId)].  The statements run in
    source order, each [push] appending to its array. *)
Definition validateOvertimeHours (tracking : gmap string Tracking)
    (hours : float) (type : string) (userId : string) : Validation :=
  let errors0 : list string := [] in
  let warnings0 : list warning := [] in
  let errors1 :=
    if (hours <=? 0)%float
    then (errors0 ++ ["Overtime hours must be greater than 0"])%list
    else errors0 in
  let warnings1 :=
    if (OVERTIME_LIMITS.MAX_HOURS_PER_DAY <? hours)%float
    then (warnings0 ++ [WarnDailyLimit])%list
    else warnings0 in
  let userTracking := tracking_of tracking userId in
  let newWeeklyTotal := (weekly userTracking + hours)%float in
  let warnings2 :=
    if (OVERTIME_LIMITS.MAX_HOURS_PER_WEEK <? newWeeklyTotal)%float
    then (warnings1 ++ [WarnWeeklyLimit (weekly userTracking) hours newWeeklyTotal])%list
    else warnings1 in
  let newYearlyTotal := (yearly userTracking + hours)%float in
  let warnings3 :=
    if (OVERTIME_LIMITS.MAX_HOURS_PER_YEAR <? newYearlyTotal)%float
    then (warnings2 ++ [WarnYearlyLimit (yearly userTracking) hours newYearlyTotal])%list
    else warnings2 in
  let warnings4 :=
    if (8 <? hours)%float
    then (warnings3 ++ [WarnNotSustainable])%list
    else warnings3 in
  {| isValid := Nat.eqb (length errors1) 0;
     errors := errors1;
     warnings := warnings4 |}.

(** ** Rate calculator *)

(** [calculateHourlyRate(salary, dailyHours)]. *)
Definition calculateHourlyRate (salary dailyHours : float) : float :=
  (salary / (30 * dailyHours))%float.

Record Calculation : Type := mkCalculation {
  calc_hourlyRate : float;
  multiplier : multiplier_value;
  totalPay : float;
  ratePerSecond : float
}.

(** [calculateOvertimePayFromRate(hourlyRate, overtimeType, hours)]. *)
Definition calculateOvertimePayFromRate (hourlyRate : float)
    (overtimeType : string) (hours : float) : Calculation :=
  let multiplier := lookup_multiplier overtimeType in
  let totalPay := (hourlyRate * multiplier_number multiplier * hours)%float in
  let ratePerSecond := (totalPay / (hours * 3600))%float in
  {| calc_hourlyRate := hourlyRate;
     multiplier := multiplier;
     totalPay := totalPay;
     ratePerSecond := ratePerSecond |}.

(** [calculateOvertimePay(salary, dailyHours, overtimeType, hours)]. *)
Definition calculateOvertimePay (salary dailyHours : float)
    (overtimeType : string) (hours : float) : Calculation :=
  let hourlyRate := calculateHourlyRate salary dailyHours in
  let multiplier := lookup_multiplier overtimeType in
  let totalPay := (hourlyRate * multiplier_number multiplier * hours)%float in
  let ratePerSecond := (totalPay / (hours * 3600))%float in
  {| calc_hourlyRate := hourlyRate;
     multiplier := multiplier;
     totalPay := totalPay;
     ratePerSecond := ratePerSecond |}.

(** ** Overtime tracker *)

(** [updateUserOvertimeTracking(userId, hours)].  The argument is the
    stopped session's [totalHours], a number or [null]; [+=] on a number
    converts it with [ToNumber]. *)
Definition updateUserOvertimeTracking (tracking : gmap string Tracking)
    (userId : string) (hours : value) : gmap string Tracking :=
  let current := tracking_of tracking userId in
  let current1 :=
    {| weekly := (weekly current + ToNumber hours)%float;
       yearly := yearly current |} in
  let current2 :=
    {| weekly := weekly current1;
       yearly := (yearly current1 + ToNumber hours)%float |} in
  <[userId := current2]> tracking.

(** ** Session store *)

(** A session object.  [endTime], [duration], [elapsedTime] and
    [remainingTime] are not among the properties a new session is created
    with, so they read as [undefined] until something assigns them. *)
Record Session : Type := mkSession {
  session_id : string;
  hourlyRate : float;
  overtimeType : string;
  totalHours : value;
  calculation : Calculation;
  startTime : Z;
  isActive : bool;
  currentEarnings : float;
  session_warnings : list warning;
  isOpenEnded : bool;
  endTime : option Z;
  duration : value;
  elapsedTime : value;
  remainingTime : value
}.

(** Assignments [session.f = v] to the properties the server mutates. *)
Definition set_isActive (v : bool) (s : Session) : Session :=
  mkSession (session_id s) (hourlyRate s) (overtimeType s) (totalHours s)
    (calculation s) (startTime s) v (currentEarnings s)
    (session_warnings s) (isOpenEnded s) (endTime s) (duration s)
    (elapsedTime s) (remainingTime s).

Definition set_currentEarnings (v : float) (s : Session) : Session :=
  mkSession (session_id s) (hourlyRate s) (overtimeType s) (totalHours s)
    (calculation s) (startTime s) (isActive s) v
    (session_warnings s) (isOpenEnded s) (endTime s) (duration s)
    (elapsedTime s) (remainingTime s).

Definition set_endTime (v : Z) (s : Session) : Session :=
  mkSession (session_id s) (hourlyRate s) (overtimeType s) (totalHours s)
    (calculation s) (startTime s) (isActive s) (currentEarnings s)
    (session_warnings s) (isOpenEnded s) (Some v) (duration s)
    (elapsedTime s) (remainingTime s).

Definition set_duration (v : float) (s : Session) : Session :=
  mkSession (session_id s) (hourlyRate s) (overtimeType s) (totalHours s)
    (calculation s) (startTime s) (isActive s) (currentEarnings s)
    (session_warnings s) (isOpenEnded s) (endTime s) (VNum v)
    (elapsedTime s) (remainingTime s).

Definition set_elapsedTime (v : float) (s : Session) : Session :=
  mkSession (session_id s) (hourlyRate s) (overtimeType s) (totalHours s)
    (calculation s) (startTime s) (isActive s) (currentEarnings s)
    (session_warnings s) (isOpenEnded s) (endTime s) (duration s)
    (VNum v) (remainingTime s).

Definition set_remainingTime (v : value) (s : Session) : Session :=
  mkSession (session_id s) (hourlyRate s) (overtimeType s) (totalHours s)
    (calculation s) (startTime s) (isActive s) (currentEarnings s)
    (session_warnings s) (isOpenEnded s) (endTime s) (duration s)
    (elapsedTime s) v.

(** The [sessions] map.  A JavaScript [Map] iterates in insertion order,
    which [forEach] and [values()] expose, so it is kept as an association
    list with at most one entry per key. *)
Definition SessionMap : Type := list (string * Session).

(** [sessions.get(key)]. *)
Fixpoint map_get (key : string) (m : SessionMap) : option Session :=
  match m with
  | [] => None
  | (k, s) :: m' => if String.eqb key k then Some s else map_get key m'
  end.

(** [sessions.set(key, s)]: an existing key keeps its position and gets
    the new value, a new key is appended.  It also stands for mutating,
    in place, the object stored under [key]. *)
Fixpoint map_set (key : string) (s : Session) (m : SessionMap) : SessionMap :=
  match m with
  | [] => [(key, s)]
  | (k, s') :: m' =>
      if String.eqb key k then (k, s) :: m' else (k, s') :: map_set key s m'
  end.

(** [Array.from(sessions.values())]. *)
Definition map_values (m : SessionMap) : list Session := map snd m.

Definition map_keys (m : SessionMap) : list string := map fst m.

(** The server's two process-wide maps. *)
Record State : Type := mkState {
  sessions : SessionMap;
  userOvertimeTracking : gmap string Tracking
}.

Definition initial_state : State := mkState [] ∅.

(** [(now - session.startTime) / 1000]: both dates convert to their time
    values and the subtraction and division are binary64 operations. *)
Definition elapsed_seconds (now : Z) (s : Session) : float :=
  ((number_of_time now - number_of_time (startTime s)) / 1000)%float.

(** ** Request handlers *)

(** The JSON body of [/api/calculate] and [/api/start-session]:
    [hourlyRate] and [hours] are numbers, [null] or absent, [overtimeType]
    is a string or absent. *)
Record Body : Type := mkBody {
  body_hourlyRate : value;
  body_overtimeType : option string;
  body_hours : value
}.

(** What a handler sends back. *)
Inductive response : Type :=
| BadRequest (error : string)
| NotFound (error : string)
| Calculated (calculation : Calculation) (warnings : list warning)
    (isPreview : bool)
| Started (sessionId : string) (calculation : Calculation)
    (warnings : list warning) (isOpenEnded : bool)
| Stopped (session : Session)
| SessionList (sessions : list Session)
| TrackingInfo (tracking : Tracking)
| Status (currentEarnings : float) (elapsedTime remainingTime : value)
    (isOpenEnded isActive : bool).

(** The guard [if (!hourlyRate || !overtimeType)] fails exactly when this
    returns [None]; past it [hourlyRate] is a number and [overtimeType] a
    string, which is what [Some] carries. *)
Definition required_fields (body : Body) : option (float * string) :=
  match body_hourlyRate body, body_overtimeType body with
  | VNum rate, Some type =>
      if negb (truthy_num rate) || negb (truthy_str type) then None
      else Some (rate, type)
  | _, _ => None
  end.

(** [validation.errors.join(', ')]. *)
Definition join_errors (errors : list string) : string :=
  String.concat ", " errors.

(** [POST /api/calculate]. *)
Definition api_calculate (st : State) (body : Body) : response :=
  match required_fields body with
  | None => BadRequest "Hourly rate and overtime type are required"
  | Some (hourlyRate, overtimeType) =>
      if (hourlyRate <=? 0)%float then BadRequest "Invalid hourly rate" else
      let hoursToUse := or_num (body_hours body) 1 in
      let validation :=
        validateOvertimeHours (userOvertimeTracking st) hoursToUse
          overtimeType "default" in
      if negb (isValid validation)
      then BadRequest (join_errors (errors validation)) else
      let calculation :=
        calculateOvertimePayFromRate hourlyRate overtimeType hoursToUse in
      Calculated calculation (warnings validation)
        (negb (truthy (body_hours body)))
  end.

(** [POST /api/start-session].  [dateNow] is what [Date.now()] returns for
    the id and [newDate] what [new Date()] returns for [startTime]. *)
Definition api_start_session (st : State) (body : Body) (dateNow newDate : Z)
  : State * response :=
  match required_fields body with
  | None => (st, BadRequest "Hourly rate and overtime type are required")
  | Some (hourlyRate, overtimeType) =>
      if (hourlyRate <=? 0)%float then (st, BadRequest "Invalid hourly rate")
      else
      let totalHours := or_null (body_hours body) in
      let hoursToUse := or_num totalHours 1 in
      let validation :=
        validateOvertimeHours (userOvertimeTracking st) hoursToUse
          overtimeType "default" in
      if negb (isValid validation)
      then (st, BadRequest (join_errors (errors validation))) else
      let calculation :=
        calculateOvertimePayFromRate hourlyRate overtimeType hoursToUse in
      let sessionId := time_to_string dateNow in
      let session :=
        {| session_id := sessionId;
           hourlyRate := hourlyRate;
           overtimeType := overtimeType;
           totalHours := totalHours;
           calculation := calculation;
           startTime := newDate;
           isActive := true;
           currentEarnings := 0;
           session_warnings := warnings validation;
           isOpenEnded := negb (truthy totalHours);
           endTime := None;
           duration := VUndefined;
           elapsedTime := VUndefined;
           remainingTime := VUndefined |} in
      (mkState (map_set sessionId session (sessions st))
         (userOvertimeTracking st),
       Started sessionId calculation (warnings validation)
         (negb (truthy totalHours)))
  end.

(** [POST /api/stop-session/:sessionId]; [now] is what [new Date()]
    returns. *)
Definition api_stop_session (st : State) (sessionId : string) (now : Z)
  : State * response :=
  match map_get sessionId (sessions st) with
  | None => (st, NotFound "Session not found")
  | Some session =>
      let session1 := set_isActive false session in
      let session2 := set_endTime now session1 in
      let session3 := set_duration (elapsed_seconds now session2) session2 in
      let tracking :=
        updateUserOvertimeTracking (userOvertimeTracking st) "default"
          (totalHours session3) in
      (mkState (map_set sessionId session3 (sessions st)) tracking,
       Stopped session3)
  end.

(** [GET /api/sessions]. *)
Definition api_sessions (st : State) : response :=
  SessionList (map_values (sessions st)).

(** [GET /api/overtime-tracking]. *)
Definition api_overtime_tracking (st : State) : response :=
  TrackingInfo (tracking_of (userOvertimeTracking st) "default").

(** The body of [if (session.isActive) { ... }] in the status handler. *)
Definition status_update (now : Z) (session : Session) : Session :=
  if isActive session then
    let elapsedSeconds := elapsed_seconds now session in
    if isOpenEnded session then
      let s1 :=
        set_currentEarnings
          (ratePerSecond (calculation session) * elapsedSeconds)%float
          session in
      let s2 := set_elapsedTime elapsedSeconds s1 in
      set_remainingTime VNull s2
    else
      let maxSeconds := (ToNumber (totalHours session) * 3600)%float in
      if (elapsedSeconds <? maxSeconds)%float then
        let s1 :=
          set_currentEarnings
            (ratePerSecond (calculation session) * elapsedSeconds)%float
            session in
        let s2 := set_elapsedTime elapsedSeconds s1 in
        set_remainingTime (VNum (maxSeconds - elapsedSeconds)%float) s2
      else
        let s1 := set_isActive false session in
        let s2 := set_endTime now s1 in
        let s3 := set_duration elapsedSeconds s2 in
        let s4 := set_currentEarnings (totalPay (calculation s3)) s3 in
        let s5 := set_elapsedTime elapsedSeconds s4 in
        set_remainingTime (VNum 0) s5
  else session.

(** [GET /api/session-status/:sessionId]; [now] is what [new Date()]
    returns. *)
Definition api_session_status (st : State) (sessionId : string) (now : Z)
  : State * response :=
  match map_get sessionId (sessions st) with
  | None => (st, NotFound "Session not found")
  | Some session =>
      let session' := status_update now session in
      (mkState (map_set sessionId session' (sessions st))
         (userOvertimeTracking st),
       Status (currentEarnings session') (elapsedTime session')
         (remainingTime session') (isOpenEnded session') (isActive session'))
  end.

(** ** Tick scheduler *)

(** What [io.to(sessionId).emit(name, payload)] sends. *)
Inductive event : Type :=
| EarningsUpdate (room : string) (currentEarnings elapsedTime : float)
    (remainingTime : value) (isOpenEnded : bool)
| SessionComplete (room : string) (finalEarnings totalDuration : float).

(** The callback of [sessions.forEach] for one entry: the session after the
    callback and the events it emitted. *)
Definition tick_session (sessionId : string) (now : Z) (session : Session)
  : Session * list event :=
  if isActive session then
    let elapsedSeconds := elapsed_seconds now session in
    if isOpenEnded session then
      let s1 :=
        set_currentEarnings
          (ratePerSecond (calculation session) * elapsedSeconds)%float
          session in
      (s1, [EarningsUpdate sessionId (currentEarnings s1) elapsedSeconds
              VNull true])
    else
      let maxSeconds := (ToNumber (totalHours session) * 3600)%float in
      if (elapsedSeconds <? maxSeconds)%float then
        let s1 :=
          set_currentEarnings
            (ratePerSecond (calculation session) * elapsedSeconds)%float
            session in
        (s1, [EarningsUpdate sessionId (currentEarnings s1) elapsedSeconds
                (VNum (maxSeconds - elapsedSeconds)%float) false])
      else
        let s1 := set_isActive false session in
        let s2 := set_endTime now s1 in
        let s3 := set_duration elapsedSeconds s2 in
        let s4 := set_currentEarnings (totalPay (calculation s3)) s3 in
        (s4, [SessionComplete sessionId (currentEarnings s4) elapsedSeconds])
  else (session, []).

(** [sessions.forEach(...)]: the entries are visited in insertion order.
    [clock key] is what [new Date()] returns while the entry stored under
    [key] is visited. *)
Fixpoint tick_sessions (clock : string -> Z) (m : SessionMap)
  : SessionMap * list event :=
  match m with
  | [] => ([], [])
  | (key, session) :: m' =>
      let '(session', evs) := tick_session key (clock key) session in
      let '(m'', evs') := tick_sessions clock m' in
      ((key, session') :: m'', (evs ++ evs')%list)
  end.

(** One firing of the [setInterval] callback. *)
Definition tick (st : State) (clock : string -> Z) : State * list event :=
  let '(m, evs) := tick_sessions clock (sessions st) in
  (mkState m (userOvertimeTracking st), evs).

(** ** Runs of the server *)

(** The things that happen to the server, with the clock readings each
    one takes. *)
Inductive operation : Type :=
| OpCalculate (body : Body)
| OpStart (body : Body) (dateNow newDate : Z)
| OpStop (sessionId : string) (now : Z)
| OpSessions
| OpTracking
| OpStatus (sessionId : string) (now : Z)
| OpTick (clock : string -> Z).

Inductive output : Type :=
| Response (r : response)
| Emitted (evs : list event).

Definition step (st : State) (op : operation) : State * output :=
  match op with
  | OpCalculate body => (st, Response (api_calculate st body))
  | OpStart body dateNow newDate =>
      let '(st', r) := api_start_session st body dateNow newDate in
      (st', Response r)
  | OpStop sessionId now =>
      let '(st', r) := api_stop_session st sessionId now in (st', Response r)
  | OpSessions => (st, Response (api_sessions st))
  | OpTracking => (st, Response (api_overtime_tracking st))
  | OpStatus sessionId now =>
      let '(st', r) := api_session_status st sessionId now in
      (st', Response r)
  | OpTick clock =>
      let '(st', evs) := tick st clock in (st', Emitted evs)
  end.

(** The state after a sequence of operations and everything they output,
    in order. *)
Fixpoint run (st : State) (ops : list operation) : State * list output :=
  match ops with
  | [] => (st, [])
  | op :: ops' =>
      let '(st1, o) := step st op in
      let '(st2, os) := run st1 ops' in
      (st2, o :: os)
  end.

(** The [session-complete] events a list of outputs holds for one room. *)
Definition is_completion (room : string) (e : event) : bool :=
  match e with
  | SessionComplete r _ _ => String.eqb r room
  | EarningsUpdate _ _ _ _ _ => false
  end.

Fixpoint completions (room : string) (os : list output) : nat :=
  match os with
  | [] => 0
  | Response _ :: os' => completions room os'
  | Emitted evs :: os' =>
      length (List.filter (is_completion room) evs) + completions room os'
  end.

(** The operations that advance or read sessions without creating or
    stopping any: scheduler sweeps and status queries. *)
Definition advances (op : operation) : bool :=
  match op with
  | OpTick _ | OpStatus _ _ => true
  | OpCalculate _ | OpStart _ _ _ | OpStop _ _ | OpSessions | OpTracking =>
      false
  end.

(** A session that is over: inactive since [now], with the elapsed time
    as its duration and the precomputed pay as its earnings. *)
Definition completed_at (now : Z) (s s' : Session) : Prop :=
  isActive s' = false /\
  endTime s' = Some now /\
  duration s' = VNum (elapsed_seconds now s) /\
  currentEarnings s' = totalPay (calculation s).

(** A request for one hour of normal overtime at a rate of 100. *)
Definition one_hour_body : Body :=
  mkBody (VNum 100) (Some "normal") (VNum 1).

(** The store after that request, made when the clock reads 0: a single
    fixed-duration session under the id ["0"]. *)
Definition one_hour_state : State :=
  fst (api_start_session initial_state one_hour_body 0 0).

(** The session that store holds. *)
Definition one_hour_session : Session :=
  {| session_id := "0";
     hourlyRate := 100;
     overtimeType := "normal";
     totalHours := VNum 1;
     calculation := calculateOvertimePayFromRate 100 "normal" 1;
     startTime := 0;
     isActive := true;
     currentEarnings := 0;
     session_warnings := [];
     isOpenEnded := false;
     endTime := None;
     duration := VUndefined;
     elapsedTime := VUndefined;
     remainingTime := VUndefined |}.

(** A request for two hours of normal overtime at a rate of 100. *)
Definition two_hour_body : Body :=
  mkBody (VNum 100) (Some "normal") (VNum 2).

(** The same request without [hours], and with [hours: 0]. *)
Definition open_ended_body : Body :=
  mkBody (VNum 100) (Some "normal") VUndefined.

Definition zero_hours_body : Body :=
  mkBody (VNum 100) (Some "normal") (VNum 0).

(** The multiplier table as the specification words it: 1.5 for normal,
    1.75 for night, 2.0 for sunday, 2.5 for holiday and 1.5 for any other
    type. *)
Definition spec_multiplier (overtimeType : string) : float :=
  if String.eqb overtimeType "normal" then 1.5%float
  else if String.eqb overtimeType "night" then 1.75%float
  else if String.eqb overtimeType "sunday" then 2%float
  else if String.eqb overtimeType "holiday" then 2.5%float
  else 1.5%float.

(** A session whose [elapsedTime] and [remainingTime] are replaced. *)
Definition with_times (e r : value) (s : Session) : Session :=
  mkSession (session_id s) (hourlyRate s) (overtimeType s) (totalHours s)
    (calculation s) (startTime s) (isActive s) (currentEarnings s)
    (session_warnings s) (isOpenEnded s) (endTime s) (duration s) e r.

(** The store holds at most one session per key and every session sits
    under its own id. *)
Definition well_keyed (m : SessionMap) : Prop :=
  NoDup (map_keys m) /\ Forall (fun e => session_id (snd e) = fst e) m.

(** ** Vocabulary for the properties of the handlers *)

(** A request field that holds a number above zero, below zero. *)
Definition is_positive (v : value) : bool :=
  match v with
  | VNum x => (0 <? x)%float
  | VUndefined | VNull => false
  end.

Definition is_negative (v : value) : bool :=
  match v with
  | VNum x => (x <? 0)%float
  | VUndefined | VNull => false
  end.

(** The [overtimeType] field holds a non-empty string. *)
Definition has_type (type : option string) : bool :=
  match type with
  | Some t => truthy_str t
  | None => false
  end.

(** What every stored session keeps from its creation: it sits under its
    own id, its rate is above zero, its type is not empty, its hours are
    [null] or above zero, it is open-ended exactly when they are [null],
    and its calculation is the one for its rate, type and hours (one hour
    when open-ended). *)
Definition creation_consistent (key : string) (s : Session) : Prop :=
  session_id s = key /\
  (0 <? hourlyRate s)%float = true /\
  truthy_str (overtimeType s) = true /\
  (totalHours s = VNull \/
   exists h, totalHours s = VNum h /\ (0 <? h)%float = true) /\
  isOpenEnded s = negb (truthy (totalHours s)) /\
  calculation s =
    calculateOvertimePayFromRate (hourlyRate s) (overtimeType s)
      (or_num (totalHours s) 1).

(** The end of a session is recorded exactly when it is over: an active
    session has neither [endTime] nor [duration], an inactive one has
    both. *)
Definition termination_consistent (s : Session) : Prop :=
  (isActive s = true /\ endTime s = None /\ duration s = VUndefined) \/
  (isActive s = false /\ (exists t, endTime s = Some t) /\
   exists d, duration s = VNum d).

(** A property of every stored session and the key it is stored under. *)
Definition all_sessions (P : string -> Session -> Prop) (m : SessionMap)
  : Prop :=
  Forall (fun e => P (fst e) (snd e)) m.

(** The tracking map holds at most the default user's entry, and in it
    the weekly and the yearly total are the same number. *)
Definition tracking_consistent (tracking : gmap string Tracking) : Prop :=
  (forall user : string, user <> "default" -> tracking !! user = None) /\
  weekly (tracking_of tracking "default") =
  yearly (tracking_of tracking "default").

(** A binary64 value that is not below zero: [NaN], a zero, or a value
    with a clear sign bit. *)
Definition sf_not_negative (x : spec_float) : Prop :=
  match x with
  | S754_nan | S754_zero _ => True
  | S754_infinity s | S754_finite s _ _ => s = false
  end.

Definition not_negative (x : float) : Prop := sf_not_negative (Prim2SF x).

(** The room an event is sent to. *)
Definition event_room (e : event) : string :=
  match e with
  | EarningsUpdate room _ _ _ _ => room
  | SessionComplete room _ _ => room
  end.

(** The events of a list that are sent to one room. *)
Definition room_events (room : string) (evs : list event) : list event :=
  List.filter (fun e => String.eqb (event_room e) room) evs.

(** The keys of the active sessions, in store order. *)
Definition active_keys (m : SessionMap) : list string :=
  map fst (List.filter (fun e => isActive (snd e)) m).

Definition is_start (op : operation) : bool :=
  match op with
  | OpStart _ _ _ => true
  | _ => false
  end.

(** Case analysis on the condition of a conditional in the goal. *)
Ltac destruct_if :=
  match goal with
  | |- context [if ?b then _ else _] => destruct b
  end.

(** ** Facts about binary64 comparison and addition *)

Module FloatFacts.

(** Swapping the operands of a comparison reverses its outcome; an
    unordered pair (one operand is [NaN]) stays unordered. *)
Lemma SFcompare_swap (x y : spec_float) :
  SFcompare y x = option_map CompOpp (SFcompare x y).
Proof.
  destruct x as [sx|sx| |sx mx ex], y as [sy|sy| |sy my ey]; simpl;
    try reflexivity; try (destruct sx; reflexivity);
    try (destruct sy; reflexivity); try (destruct sx, sy; reflexivity).
  destruct sx, sy; simpl; try reflexivity;
    rewrite (Z.compare_antisym ex ey); destruct (ex ?= ey)%Z; simpl;
    try reflexivity;
    change (Pos.compare_cont Eq my mx) with (Pos.compare my mx);
    change (Pos.compare_cont Eq mx my) with (Pos.compare mx my);
    rewrite (Pos.compare_antisym mx my);
    destruct (mx ?= my)%positive; reflexivity.
Qed.

Lemma ltb_leb_false (a b : float) :
  PrimFloat.ltb a b = true -> PrimFloat.leb b a = false.
Proof.
  rewrite FloatAxioms.ltb_spec, FloatAxioms.leb_spec. unfold SFltb, SFleb.
  rewrite (SFcompare_swap (Prim2SF a) (Prim2SF b)).
  destruct (SFcompare (Prim2SF a) (Prim2SF b)) as [[]|]; simpl; congruence.
Qed.

Lemma leb_ltb_false (a b : float) :
  PrimFloat.leb a b = true -> PrimFloat.ltb b a = false.
Proof.
  rewrite FloatAxioms.ltb_spec, FloatAxioms.leb_spec. unfold SFltb, SFleb.
  rewrite (SFcompare_swap (Prim2SF a) (Prim2SF b)).
  destruct (SFcompare (Prim2SF a) (Prim2SF b)) as [[]|]; simpl; congruence.
Qed.

Lemma SFcompare_refl (x : spec_float) :
  x <> S754_nan -> SFcompare x x = Some Eq.
Proof.
  destruct x as [s|s| |s m e]; simpl; intros Hx;
    try reflexivity; try (destruct s; reflexivity); try congruence.
  destruct s; rewrite Z.compare_refl;
    change (Pos.compare_cont Eq m m) with (Pos.compare m m);
    rewrite Pos.compare_refl; reflexivity.
Qed.

(** A number above zero is truthy: it is neither a zero nor [NaN]. *)
Lemma positive_truthy (x : float) :
  PrimFloat.ltb 0 x = true -> truthy_num x = true.
Proof.
  unfold truthy_num, PrimFloat.is_nan.
  rewrite FloatAxioms.ltb_spec, !FloatAxioms.eqb_spec. unfold SFltb, SFeqb.
  rewrite (SFcompare_swap (Prim2SF 0) (Prim2SF x)).
  destruct (SFcompare (Prim2SF 0) (Prim2SF x)) as [[]|] eqn:E;
    try discriminate.
  intros _. simpl. rewrite SFcompare_refl; [reflexivity|].
  intros Hnan. rewrite Hnan in E. vm_compute in E. discriminate E.
Qed.

Lemma Prim2SF_zero : Prim2SF 0%float = S754_zero false.
Proof. reflexivity. Qed.

(** [x + 0] is [x] itself, except that [-0 + 0] is [+0]. *)
Lemma add_zero_r (x : float) :
  Prim2SF x <> S754_zero true -> (x + 0)%float = x.
Proof.
  intros Hx. apply Prim2SF_inj. rewrite FloatAxioms.add_spec, Prim2SF_zero.
  unfold SF64add, SFadd.
  destruct (Prim2SF x) as [[]| | |]; try reflexivity. congruence.
Qed.

Lemma add_zero_same (x : float) : same_number (x + 0)%float x.
Proof.
  unfold same_number.
  destruct (Prim2SF x) as [[]| | |] eqn:E.
  2-5: left; apply add_zero_r; congruence.
  right.
  rewrite FloatAxioms.eqb_spec, FloatAxioms.add_spec, E, Prim2SF_zero.
  reflexivity.
Qed.

End FloatFacts.


(** ** Limit validator: only non-positive hours are an error *)

Section Validator.

Variables (tracking : gmap string Tracking) (type userId : string).

Lemma validateOvertimeHours_errors (hours : float) :
  errors (validateOvertimeHours tracking hours type userId) =
  if (hours <=? 0)%float then ["Overtime hours must be greater than 0"]
  else [].
Proof.
  unfold validateOvertimeHours; simpl.
  destruct (hours <=? 0)%float; reflexivity.
Qed.

Lemma validateOvertimeHours_isValid (hours : float) :
  isValid (validateOvertimeHours tracking hours type userId) =
  negb (hours <=? 0)%float.
Proof.
  unfold validateOvertimeHours; simpl.
  destruct (hours <=? 0)%float; reflexivity.
Qed.

(** Each over-limit test contributes its own warning, whatever the other
    tests do. *)
Lemma validateOvertimeHours_warnings (hours : float) :
  let t := tracking_of tracking userId in
  let w := warnings (validateOvertimeHours tracking hours type userId) in
  ((OVERTIME_LIMITS.MAX_HOURS_PER_DAY <? hours)%float = true ->
     In WarnDailyLimit w) /\
  ((OVERTIME_LIMITS.MAX_HOURS_PER_WEEK <? weekly t + hours)%float = true ->
     In (WarnWeeklyLimit (weekly t) hours (weekly t + hours)%float) w) /\
  ((OVERTIME_LIMITS.MAX_HOURS_PER_YEAR <? yearly t + hours)%float = true ->
     In (WarnYearlyLimit (yearly t) hours (yearly t + hours)%float) w) /\
  ((8 <? hours)%float = true -> In WarnNotSustainable w).
Proof.
  unfold validateOvertimeHours; simpl.
  repeat split; intros H; rewrite H;
    repeat destruct_if;
    rewrite ?in_app_iff; simpl; tauto.
Qed.

End Validator.

(** A request with positive hours, a positive rate and a type starts a
    fixed-duration session whatever the tracking totals are. *)
Lemma start_session_positive_hours
    (st : State) (rate hours : float) (type : string) (dateNow newDate : Z) :
  (0 <? rate)%float = true -> truthy_str type = true ->
  (0 <? hours)%float = true ->
  snd (api_start_session st (mkBody (VNum rate) (Some type) (VNum hours))
         dateNow newDate) =
  Started (time_to_string dateNow)
    (calculateOvertimePayFromRate rate type hours)
    (warnings (validateOvertimeHours (userOvertimeTracking st) hours type
                 "default"))
    false.
Proof.
  intros Hrate Htype Hhours.
  pose proof (FloatFacts.positive_truthy _ Hrate) as Hr.
  pose proof (FloatFacts.positive_truthy _ Hhours) as Hh.
  unfold api_start_session, required_fields.
  cbn [body_hours body_hourlyRate body_overtimeType].
  unfold or_null. cbn [truthy]. rewrite Hr, Htype, Hh. cbn [negb orb or_num].
  rewrite Hh, (FloatFacts.ltb_leb_false _ _ Hrate).
  rewrite validateOvertimeHours_isValid, (FloatFacts.ltb_leb_false _ _ Hhours).
  cbn [negb snd truthy]. rewrite Hh. reflexivity.
Qed.

(** C1.  [validateOvertimeHours] is invalid, with a non-empty error list,
    exactly when [hours <= 0]; for [hours > 0] it is valid; and exceeding
    the daily cap of 4, the weekly cap of 12, the yearly cap of 100 or 8
    hours adds the matching warning and nothing to the errors, whose only
    possible entry is the one for non-positive hours.  So a start request
    with positive hours is never refused, whatever the totals. *)
Theorem validateOvertimeHours_limits_are_advisory
    (tracking : gmap string Tracking) (hours : float) (type userId : string) :
  let v := validateOvertimeHours tracking hours type userId in
  let t := tracking_of tracking userId in
  ((isValid v = false /\ errors v <> []) <-> (hours <=? 0)%float = true) /\
  ((0 <? hours)%float = true -> isValid v = true /\ errors v = []) /\
  ((4 <? hours)%float = true -> In WarnDailyLimit (warnings v)) /\
  ((12 <? weekly t + hours)%float = true ->
     In (WarnWeeklyLimit (weekly t) hours (weekly t + hours)%float)
        (warnings v)) /\
  ((100 <? yearly t + hours)%float = true ->
     In (WarnYearlyLimit (yearly t) hours (yearly t + hours)%float)
        (warnings v)) /\
  ((8 <? hours)%float = true -> In WarnNotSustainable (warnings v)) /\
  (errors v = [] \/ errors v = ["Overtime hours must be greater than 0"]) /\
  (forall (stored : SessionMap) (rate : float) (dateNow newDate : Z),
     (0 <? rate)%float = true -> truthy_str type = true ->
     (0 <? hours)%float = true ->
     exists c w,
       snd (api_start_session (mkState stored tracking)
              (mkBody (VNum rate) (Some type) (VNum hours)) dateNow newDate)
       = Started (time_to_string dateNow) c w false).
Proof.
  intros v t. subst v t.
  rewrite validateOvertimeHours_isValid, validateOvertimeHours_errors.
  split; [|split].
  - destruct (hours <=? 0)%float; simpl; split.
    + reflexivity.
    + intros _. split; [reflexivity | discriminate].
    + intros [H _]. discriminate H.
    + discriminate.
  - intros Hpos. apply FloatFacts.ltb_leb_false in Hpos. rewrite Hpos. auto.
  - pose proof (validateOvertimeHours_warnings tracking type userId hours)
      as (Hd & Hw & Hy & Hs).
    repeat split; try assumption.
    + destruct (hours <=? 0)%float; auto.
    + intros stored rate dateNow newDate Hrate Htype Hhours.
      eexists. eexists.
      apply (start_session_positive_hours (mkState stored tracking));
        assumption.
Qed.

(** Nine hours against an empty tracking map: valid, with the daily-limit
    and the sustainability warnings, and the session is started. *)
Lemma validateOvertimeHours_limits_are_advisory_witness :
  isValid (validateOvertimeHours ∅ 9 "normal" "default") = true /\
  In WarnDailyLimit (warnings (validateOvertimeHours ∅ 9 "normal" "default")) /\
  In WarnNotSustainable
     (warnings (validateOvertimeHours ∅ 9 "normal" "default")) /\
  exists c w,
    snd (api_start_session initial_state
           (mkBody (VNum 100) (Some "normal") (VNum 9)) 0 0)
    = Started "0" c w false.
Proof.
  destruct (validateOvertimeHours_limits_are_advisory ∅ 9 "normal" "default")
    as (_ & Hpos & Hday & _ & _ & Hsus & _ & Hstart).
  split; [apply Hpos; reflexivity|].
  split; [apply Hday; reflexivity|].
  split; [apply Hsus; reflexivity|].
  apply (Hstart [] 100%float 0%Z 0%Z); reflexivity.
Defined.

(** ** Rate calculator *)

Lemma lookup_multiplier_not_inherited (overtimeType : string) :
  inherited overtimeType = false ->
  lookup_multiplier overtimeType = MNum (spec_multiplier overtimeType).
Proof.
  intros Hinh. unfold lookup_multiplier, spec_multiplier. simpl.
  repeat match goal with
         | |- context [String.eqb overtimeType ?k] =>
             destruct (String.eqb overtimeType k); [reflexivity|]
         end.
  rewrite Hinh. reflexivity.
Qed.

(** The documented example: a salary of 5000 at 8 hours a day gives
    20.833333333333332, displayed as 20.83. *)
Example calculateHourlyRate_example :
  calculateHourlyRate 5000 8 = 0x1.4d55555555555p+4%float.
Proof. reflexivity. Qed.

(** Where the multiplier lookup works as meant.  The multiplier is 1.5 for
    normal, 1.75 for night, 2.0 for sunday, 2.5 for holiday, and 1.5 for
    any other type that names no property the table inherits; [totalPay]
    is [hourlyRate * multiplier * hours] and [ratePerSecond] is
    [totalPay / (hours * 3600)]. *)
Theorem calculateOvertimePayFromRate_pay
    (hourlyRate : float) (overtimeType : string) (hours : float) :
  let c := calculateOvertimePayFromRate hourlyRate overtimeType hours in
  (inherited overtimeType = false ->
     multiplier c = MNum (spec_multiplier overtimeType) /\
     totalPay c = (hourlyRate * spec_multiplier overtimeType * hours)%float) /\
  ratePerSecond c = (totalPay c / (hours * 3600))%float /\
  totalPay (calculateOvertimePayFromRate hourlyRate "normal" hours) =
    (hourlyRate * 1.5 * hours)%float /\
  totalPay (calculateOvertimePayFromRate hourlyRate "night" hours) =
    (hourlyRate * 1.75 * hours)%float /\
  totalPay (calculateOvertimePayFromRate hourlyRate "sunday" hours) =
    (hourlyRate * 2 * hours)%float /\
  totalPay (calculateOvertimePayFromRate hourlyRate "holiday" hours) =
    (hourlyRate * 2.5 * hours)%float.
Proof.
  intros c. subst c. split; [|repeat split].
  intros Hinh. unfold calculateOvertimePayFromRate; simpl.
  rewrite (lookup_multiplier_not_inherited _ Hinh). split; reflexivity.
Qed.

Lemma calculateOvertimePayFromRate_pay_witness :
  totalPay (calculateOvertimePayFromRate 20.5 "overnight" 2) =
  (20.5 * 1.5 * 2)%float.
Proof.
  destruct (calculateOvertimePayFromRate_pay 20.5 "overnight" 2) as [H _].
  destruct (H eq_refl) as [_ Hpay]. exact Hpay.
Defined.

(** C6.  [calculateHourlyRate(salary, dailyHours)] is
    [salary / (30 * dailyHours)], for positive arguments as for all others,
    and it is the hourly rate [calculateOvertimePay] works with. *)
Theorem calculateHourlyRate_formula (salary dailyHours : float) :
  calculateHourlyRate salary dailyHours = (salary / (30 * dailyHours))%float /\
  forall (overtimeType : string) (hours : float),
    calc_hourlyRate (calculateOvertimePay salary dailyHours overtimeType hours)
    = (salary / (30 * dailyHours))%float.
Proof. split; [reflexivity | intros; reflexivity]. Qed.

(** ** The session map *)

Section SessionMapFacts.

Implicit Types (m : SessionMap) (s : Session) (key k : string).

Lemma map_get_set_eq key s m : map_get key (map_set key s m) = Some s.
Proof.
  induction m as [|[k s'] m IH]; simpl.
  - rewrite String.eqb_refl. reflexivity.
  - destruct (String.eqb key k) eqn:E; simpl; rewrite E; auto.
Qed.

Lemma map_get_set_ne key k s m :
  key <> k -> map_get key (map_set k s m) = map_get key m.
Proof.
  intros Hne. induction m as [|[k' s'] m IH]; simpl.
  - apply String.eqb_neq in Hne. rewrite Hne. reflexivity.
  - destruct (String.eqb k k') eqn:E; simpl.
    + apply String.eqb_eq in E. subst k'.
      apply String.eqb_neq in Hne. rewrite Hne. reflexivity.
    + rewrite IH. reflexivity.
Qed.

Lemma map_get_None key m : map_get key m = None <-> ~ In key (map_keys m).
Proof.
  induction m as [|[k s'] m IH]; simpl.
  - tauto.
  - destruct (String.eqb key k) eqn:E.
    + apply String.eqb_eq in E. split; [discriminate|].
      intros H. exfalso. apply H. left. symmetry. exact E.
    + apply String.eqb_neq in E. rewrite IH. split.
      * intros H [H'|H']; [congruence | tauto].
      * intros H H'. apply H. right. exact H'.
Qed.

(** Overwriting a stored key keeps every key in place. *)
Lemma map_keys_set_present key s m :
  map_get key m <> None -> map_keys (map_set key s m) = map_keys m.
Proof.
  induction m as [|[k s'] m IH]; simpl; intros H.
  - congruence.
  - destruct (String.eqb key k) eqn:E; simpl; [reflexivity|].
    rewrite IH by exact H. reflexivity.
Qed.

(** A new key goes to the end. *)
Lemma map_set_absent key s m :
  map_get key m = None -> map_set key s m = (m ++ [(key, s)])%list.
Proof.
  induction m as [|[k s'] m IH]; simpl; intros H.
  - reflexivity.
  - destruct (String.eqb key k) eqn:E; [discriminate|].
    rewrite IH by exact H. reflexivity.
Qed.

Lemma map_get_In key s m : map_get key m = Some s -> In (key, s) m.
Proof.
  induction m as [|[k s'] m IH]; simpl; [discriminate|].
  destruct (String.eqb key k) eqn:E.
  - apply String.eqb_eq in E. intros [= ->]. left. congruence.
  - intros H. right. auto.
Qed.

Lemma map_set_In key s m e :
  In e (map_set key s m) -> e = (key, s) \/ In e m.
Proof.
  induction m as [|[k s'] m IH]; simpl.
  - intros [H|[]]. left. congruence.
  - destruct (String.eqb key k) eqn:E; simpl.
    + apply String.eqb_eq in E. subst k. intros [H|H]; [left; congruence | tauto].
    + intros [H|H]; [tauto|]. destruct (IH H); tauto.
Qed.

Lemma well_keyed_set key s m :
  session_id s = key -> well_keyed m -> well_keyed (map_set key s m).
Proof.
  intros Hid [Hnd Hall]. split.
  - destruct (map_get key m) eqn:G.
    + rewrite map_keys_set_present by congruence. exact Hnd.
    + rewrite map_set_absent by exact G. unfold map_keys.
      rewrite map_app. simpl. apply NoDup_app. repeat split.
      * exact Hnd.
      * intros x Hx Hk. apply list_elem_of_singleton in Hk. subst x.
        apply map_get_None in G. apply G. apply list_elem_of_In. exact Hx.
      * apply NoDup_singleton.
  - apply Forall_forall. intros e He. apply list_elem_of_In in He.
    apply map_set_In in He. destruct He as [-> | He]; [exact Hid|].
    rewrite Forall_forall in Hall. apply Hall. apply list_elem_of_In. exact He.
Qed.

End SessionMapFacts.

(** ** One session under a tick and under a status query *)

Section Transitions.

Implicit Types (s : Session) (now : Z) (sid : string).

Lemma tick_session_inactive sid now s :
  isActive s = false -> tick_session sid now s = (s, []).
Proof. intros H. unfold tick_session. rewrite H. reflexivity. Qed.

Lemma status_update_inactive now s :
  isActive s = false -> status_update now s = s.
Proof. intros H. unfold status_update. rewrite H. reflexivity. Qed.

(** The two paths differ only in that the status query also stores
    [elapsedTime] and [remainingTime] on the session. *)
Lemma status_update_tick_session sid now s :
  status_update now s =
  with_times (elapsedTime (status_update now s))
    (remainingTime (status_update now s)) (fst (tick_session sid now s)).
Proof.
  unfold status_update, tick_session.
  destruct s as [i h o t c st a ce w oe et d el r]; simpl.
  destruct a; [|reflexivity].
  destruct oe; [reflexivity|].
  destruct_if;
    reflexivity.
Qed.

Lemma tick_session_times sid now s :
  elapsedTime (fst (tick_session sid now s)) = elapsedTime s /\
  remainingTime (fst (tick_session sid now s)) = remainingTime s.
Proof.
  unfold tick_session.
  destruct (isActive s); [|split; reflexivity].
  destruct (isOpenEnded s); [split; reflexivity|].
  destruct_if;
    split; reflexivity.
Qed.

Lemma status_update_elapsedTime now s :
  isActive s = true ->
  elapsedTime (status_update now s) = VNum (elapsed_seconds now s).
Proof.
  intros H. unfold status_update. rewrite H.
  destruct (isOpenEnded s); [reflexivity|].
  destruct_if;
    reflexivity.
Qed.

(** Neither path touches what the session was created with. *)
Lemma status_update_frame now s :
  session_id (status_update now s) = session_id s /\
  startTime (status_update now s) = startTime s /\
  hourlyRate (status_update now s) = hourlyRate s /\
  overtimeType (status_update now s) = overtimeType s /\
  totalHours (status_update now s) = totalHours s /\
  calculation (status_update now s) = calculation s /\
  isOpenEnded (status_update now s) = isOpenEnded s.
Proof.
  unfold status_update.
  destruct (isActive s); [|repeat split].
  destruct (isOpenEnded s) eqn:E; [repeat split; simpl; auto|].
  destruct_if;
    repeat split; simpl; auto.
Qed.

Lemma tick_session_frame sid now s :
  let s' := fst (tick_session sid now s) in
  session_id s' = session_id s /\
  startTime s' = startTime s /\
  hourlyRate s' = hourlyRate s /\
  overtimeType s' = overtimeType s /\
  totalHours s' = totalHours s /\
  calculation s' = calculation s /\
  isOpenEnded s' = isOpenEnded s.
Proof.
  unfold tick_session.
  destruct (isActive s); [|repeat split].
  destruct (isOpenEnded s) eqn:E; [repeat split; simpl; auto|].
  destruct_if;
    repeat split; simpl; auto.
Qed.

(** A fixed-duration session whose time is up, under a tick. *)
Lemma tick_session_due sid now s (H : float) :
  isActive s = true -> isOpenEnded s = false -> totalHours s = VNum H ->
  (H * 3600 <=? elapsed_seconds now s)%float = true ->
  let s' := fst (tick_session sid now s) in
  isActive s' = false /\ endTime s' = Some now /\
  duration s' = VNum (elapsed_seconds now s) /\
  currentEarnings s' = totalPay (calculation s) /\
  snd (tick_session sid now s) =
    [SessionComplete sid (totalPay (calculation s)) (elapsed_seconds now s)].
Proof.
  intros Ha Ho Ht Hle. unfold tick_session. rewrite Ha, Ho, Ht. simpl.
  rewrite (FloatFacts.leb_ltb_false _ _ Hle). simpl. repeat split.
Qed.

(** The same session under a status query. *)
Lemma status_update_due now s (H : float) :
  isActive s = true -> isOpenEnded s = false -> totalHours s = VNum H ->
  (H * 3600 <=? elapsed_seconds now s)%float = true ->
  let s' := status_update now s in
  isActive s' = false /\ endTime s' = Some now /\
  duration s' = VNum (elapsed_seconds now s) /\
  currentEarnings s' = totalPay (calculation s) /\
  elapsedTime s' = VNum (elapsed_seconds now s) /\
  remainingTime s' = VNum 0.
Proof.
  intros Ha Ho Ht Hle. unfold status_update. rewrite Ha, Ho, Ht. simpl.
  rewrite (FloatFacts.leb_ltb_false _ _ Hle). simpl. repeat split.
Qed.

(** Every event a session's callback emits goes to that session's room. *)
Lemma tick_session_room sid now s room :
  room <> sid -> List.filter (is_completion room) (snd (tick_session sid now s)) = [].
Proof.
  intros Hne. apply not_eq_sym in Hne. apply String.eqb_neq in Hne.
  unfold tick_session.
  destruct (isActive s); [|reflexivity].
  destruct (isOpenEnded s); [reflexivity|].
  destruct_if;
    simpl; rewrite ?Hne; reflexivity.
Qed.

End Transitions.

(** ** The store under a sweep and under a status query *)

Section StoreFacts.

Implicit Types (st : State) (m : SessionMap) (s : Session) (sid key : string).

Lemma tick_sessions_cons clock key s m :
  tick_sessions clock ((key, s) :: m) =
  ((key, fst (tick_session key (clock key) s)) :: fst (tick_sessions clock m),
   (snd (tick_session key (clock key) s) ++ snd (tick_sessions clock m))%list).
Proof.
  simpl. destruct (tick_session key (clock key) s), (tick_sessions clock m).
  reflexivity.
Qed.

Lemma tick_sessions_keys clock m :
  map_keys (fst (tick_sessions clock m)) = map_keys m.
Proof.
  induction m as [|[k s] m IH]; [reflexivity|].
  rewrite tick_sessions_cons. simpl. rewrite IH. reflexivity.
Qed.

(** The sweep applies the callback to the session stored under each key. *)
Lemma tick_sessions_get clock key m :
  map_get key (fst (tick_sessions clock m)) =
  option_map (fun s => fst (tick_session key (clock key) s)) (map_get key m).
Proof.
  induction m as [|[k s] m IH]; [reflexivity|].
  rewrite tick_sessions_cons. simpl.
  destruct (String.eqb key k) eqn:E.
  - apply String.eqb_eq in E. subst k. reflexivity.
  - exact IH.
Qed.

Lemma tick_sessions_room_absent clock room m :
  ~ In room (map_keys m) ->
  List.filter (is_completion room) (snd (tick_sessions clock m)) = [].
Proof.
  induction m as [|[k s] m IH]; [reflexivity|].
  rewrite tick_sessions_cons. simpl. intros Hnin.
  rewrite List.filter_app, IH by tauto.
  rewrite tick_session_room; [reflexivity|]. intros ->. tauto.
Qed.

(** With one entry per key, the completion events of a room are those of
    the session stored under it. *)
Lemma tick_sessions_room clock room m s :
  NoDup (map_keys m) -> map_get room m = Some s ->
  List.filter (is_completion room) (snd (tick_sessions clock m)) =
  List.filter (is_completion room) (snd (tick_session room (clock room) s)).
Proof.
  induction m as [|[k s'] m IH]; [discriminate|].
  intros Hnd Hget. simpl in Hnd, Hget. apply NoDup_cons in Hnd as [Hnin Hnd].
  rewrite tick_sessions_cons. simpl. rewrite List.filter_app.
  destruct (String.eqb room k) eqn:E.
  - apply String.eqb_eq in E. subst k. injection Hget as ->.
    rewrite tick_sessions_room_absent.
    + apply app_nil_r.
    + intros Hin. apply Hnin. apply list_elem_of_In. exact Hin.
  - apply String.eqb_neq in E. rewrite tick_session_room by exact E.
    simpl. apply IH; assumption.
Qed.

Lemma tick_state st clock :
  tick st clock =
  (mkState (fst (tick_sessions clock (sessions st))) (userOvertimeTracking st),
   snd (tick_sessions clock (sessions st))).
Proof. unfold tick. destruct (tick_sessions clock (sessions st)). reflexivity. Qed.

Lemma api_session_status_get st sid now key :
  map_get key (sessions (fst (api_session_status st sid now))) =
  if String.eqb key sid
  then option_map (status_update now) (map_get key (sessions st))
  else map_get key (sessions st).
Proof.
  unfold api_session_status.
  destruct (String.eqb key sid) eqn:E.
  - apply String.eqb_eq in E. subst key.
    destruct (map_get sid (sessions st)) eqn:G; simpl.
    + apply map_get_set_eq.
    + exact G.
  - apply String.eqb_neq in E.
    destruct (map_get sid (sessions st)) eqn:G; simpl; [|reflexivity].
    apply map_get_set_ne. exact E.
Qed.

Lemma api_session_status_keys st sid now :
  map_keys (sessions (fst (api_session_status st sid now))) =
  map_keys (sessions st).
Proof.
  unfold api_session_status.
  destruct (map_get sid (sessions st)) eqn:G; simpl; [|reflexivity].
  apply map_keys_set_present. congruence.
Qed.

End StoreFacts.

(** ** Natural completion of a fixed-duration session *)

Section Completion.

Implicit Types (st : State) (s : Session) (sid : string) (ops : list operation).

Lemma run_cons st op ops :
  run st (op :: ops) =
  (fst (run (fst (step st op)) ops),
   snd (step st op) :: snd (run (fst (step st op)) ops)).
Proof.
  simpl. destruct (step st op) as [st1 o]. simpl.
  destruct (run st1 ops). reflexivity.
Qed.

Lemma completions_cons sid (o : output) (os : list output) :
  completions sid (o :: os) = completions sid [o] + completions sid os.
Proof. destruct o; simpl; lia. Qed.

Lemma step_tick st clock :
  step st (OpTick clock) =
  (mkState (fst (tick_sessions clock (sessions st))) (userOvertimeTracking st),
   Emitted (snd (tick_sessions clock (sessions st)))).
Proof. simpl. rewrite tick_state. reflexivity. Qed.

Lemma step_status st sid now :
  step st (OpStatus sid now) =
  (fst (api_session_status st sid now),
   Response (snd (api_session_status st sid now))).
Proof. simpl. destruct (api_session_status st sid now). reflexivity. Qed.

(** Sweeps and status queries keep the keys of the store. *)
Lemma step_advances_keys st op :
  advances op = true ->
  map_keys (sessions (fst (step st op))) = map_keys (sessions st).
Proof.
  destruct op; try discriminate; intros _.
  - rewrite step_status. apply api_session_status_keys.
  - rewrite step_tick. apply tick_sessions_keys.
Qed.

(** An inactive session is left as it is by a sweep or a status query,
    and the sweep emits no completion for it. *)
Lemma step_advances_inactive st op sid s :
  NoDup (map_keys (sessions st)) ->
  map_get sid (sessions st) = Some s -> isActive s = false ->
  advances op = true ->
  map_get sid (sessions (fst (step st op))) = Some s /\
  completions sid [snd (step st op)] = 0.
Proof.
  intros Hnd Hget Hin Hadv. destruct op; try discriminate.
  - rewrite step_status. simpl. split; [|reflexivity].
    rewrite api_session_status_get, Hget. simpl.
    rewrite status_update_inactive by exact Hin.
    destruct (String.eqb sid sessionId); reflexivity.
  - rewrite step_tick. simpl. split.
    + rewrite tick_sessions_get, Hget. simpl.
      rewrite tick_session_inactive by exact Hin. reflexivity.
    + rewrite (tick_sessions_room _ _ _ _ Hnd Hget).
      rewrite tick_session_inactive by exact Hin. reflexivity.
Qed.

Lemma inactive_session_frozen ops : forall st sid s,
  NoDup (map_keys (sessions st)) ->
  map_get sid (sessions st) = Some s -> isActive s = false ->
  forallb advances ops = true ->
  map_get sid (sessions (fst (run st ops))) = Some s /\
  completions sid (snd (run st ops)) = 0.
Proof.
  induction ops as [|op ops IH]; intros st sid s Hnd Hget Hin Hall.
  - split; [exact Hget | reflexivity].
  - simpl in Hall. apply andb_prop in Hall as [Hop Hall].
    destruct (step_advances_inactive st op sid s Hnd Hget Hin Hop)
      as [Hget1 Hc1].
    rewrite run_cons. cbn [fst snd].
    destruct (IH (fst (step st op)) sid s) as [Hget2 Hc2]; try assumption.
    + rewrite step_advances_keys by exact Hop. exact Hnd.
    + split; [exact Hget2|].
      destruct (snd (step st op)); simpl in *; lia.
Qed.

End Completion.

(** C2, as amended.  For an active fixed-duration session with
    [totalHours = H], once the elapsed time is at least [H * 3600] the next
    sweep or status query makes it inactive, sets [endTime], sets
    [duration] to the elapsed seconds and [currentEarnings] to the
    precomputed [totalPay]; later sweeps and status queries leave that
    state as it is.  When a sweep performs the transition exactly one
    completion event is emitted for the session over the whole run; when a
    status query performs it, none is. *)
Theorem fixed_session_completes_once
    (st : State) (sid : string) (s : Session) (H : float) (now : Z)
    (rest : list operation) :
  NoDup (map_keys (sessions st)) ->
  map_get sid (sessions st) = Some s ->
  isActive s = true -> isOpenEnded s = false -> totalHours s = VNum H ->
  (H * 3600 <=? elapsed_seconds now s)%float = true ->
  forallb advances rest = true ->
  (forall clock : string -> Z, clock sid = now ->
     exists s',
       map_get sid (sessions (fst (run st (OpTick clock :: rest)))) = Some s' /\
       completed_at now s s' /\
       completions sid (snd (run st (OpTick clock :: rest))) = 1) /\
  (exists s',
     map_get sid (sessions (fst (run st (OpStatus sid now :: rest)))) = Some s' /\
     completed_at now s s' /\
     completions sid (snd (run st (OpStatus sid now :: rest))) = 0).
Proof.
  intros Hnd Hget Ha Ho Ht Hle Hrest. split.
  - intros clock Hclock.
    destruct (tick_session_due sid now s H Ha Ho Ht Hle)
      as (Hia & Hend & Hdur & Hearn & Hev).
    set (s' := fst (tick_session sid now s)) in *.
    assert (Hget1 : map_get sid (sessions (fst (step st (OpTick clock)))) = Some s').
    { rewrite step_tick. simpl. rewrite tick_sessions_get, Hget, Hclock.
      reflexivity. }
    destruct (inactive_session_frozen rest (fst (step st (OpTick clock))) sid s')
      as [Hget2 Hc2]; try assumption.
    { rewrite step_advances_keys by reflexivity. exact Hnd. }
    exists s'. rewrite run_cons. cbn [fst snd]. split; [exact Hget2|].
    split; [repeat split; assumption|].
    rewrite completions_cons, Hc2, step_tick. cbn [snd completions].
    rewrite (tick_sessions_room _ _ _ _ Hnd Hget), Hclock, Hev. simpl.
    rewrite String.eqb_refl. reflexivity.
  - destruct (status_update_due now s H Ha Ho Ht Hle)
      as (Hia & Hend & Hdur & Hearn & _).
    set (s' := status_update now s) in *.
    assert (Hget1 : map_get sid (sessions (fst (step st (OpStatus sid now)))) = Some s').
    { rewrite step_status. simpl. rewrite api_session_status_get, Hget.
      rewrite String.eqb_refl. reflexivity. }
    destruct (inactive_session_frozen rest (fst (step st (OpStatus sid now))) sid s')
      as [Hget2 Hc2]; try assumption.
    { rewrite step_advances_keys by reflexivity. exact Hnd. }
    exists s'. rewrite run_cons. cbn [fst snd]. split; [exact Hget2|].
    split; [repeat split; assumption|].
    rewrite completions_cons, Hc2, step_status. reflexivity.
Qed.

(** The one-hour session at 3600 seconds, followed by a sweep and a status
    query. *)
Lemma fixed_session_completes_once_witness :
  let rest := [OpTick (fun _ => 3601000%Z); OpStatus "0" 3602000] in
  exists s',
    map_get "0"
      (sessions (fst (run one_hour_state
                        (OpTick (fun _ => 3600000%Z) :: rest)))) = Some s' /\
    completed_at 3600000 one_hour_session s' /\
    completions "0"
      (snd (run one_hour_state (OpTick (fun _ => 3600000%Z) :: rest))) = 1.
Proof.
  intros rest.
  destruct (fixed_session_completes_once one_hour_state "0" one_hour_session
              1 3600000 rest) as [Htick _];
    try reflexivity.
  - apply NoDup_singleton.
  - exact (Htick (fun _ => 3600000%Z) eq_refl).
Defined.

(** C2 as stated fails when a status query performs the transition.  The
    one-hour session is polled at 3600 seconds: it becomes inactive with
    earnings 150, and neither that query nor the two sweeps after it emit
    a completion event, so none ever fires. *)
Lemma status_query_completion_counterexample :
  let ops := [OpStatus "0" 3600000;
              OpTick (fun _ => 3601000%Z); OpTick (fun _ => 3602000%Z)] in
  map_get "0" (sessions one_hour_state) = Some one_hour_session /\
  (1 * 3600 <=? elapsed_seconds 3600000 one_hour_session)%float = true /\
  (exists s',
     map_get "0" (sessions (fst (run one_hour_state ops))) = Some s' /\
     isActive s' = false /\
     currentEarnings s' = totalPay (calculation one_hour_session)) /\
  completions "0" (snd (run one_hour_state ops)) = 0.
Proof.
  intros ops. subst ops.
  split; [vm_compute; reflexivity|]. split; [vm_compute; reflexivity|].
  split; [|vm_compute; reflexivity].
  eexists. split; [vm_compute; reflexivity|].
  split; vm_compute; reflexivity.
Qed.

(** ** Status query against scheduler sweep *)

Section SweepEvents.

Implicit Types (s : Session) (now : Z) (sid room : string) (m : SessionMap).

(** What the status query stores as [remainingTime] on an active session:
    [null] when open-ended, the seconds left while the time is not up,
    zero when it completes the session. *)
Lemma status_update_remainingTime now s :
  isActive s = true ->
  remainingTime (status_update now s) =
  if isOpenEnded s then VNull
  else if (elapsed_seconds now s <? ToNumber (totalHours s) * 3600)%float
       then VNum (ToNumber (totalHours s) * 3600 - elapsed_seconds now s)
       else VNum 0.
Proof.
  intros H. unfold status_update. rewrite H.
  destruct (isOpenEnded s); [reflexivity|]. destruct_if; reflexivity.
Qed.

(** The event the callback emits for an active session carries the
    earnings it has just stored, the elapsed seconds, and the remaining
    time a status query at the same reading would store. *)
Lemma tick_session_events sid now s :
  snd (tick_session sid now s) =
  if isActive s then
    [if isActive (fst (tick_session sid now s))
     then EarningsUpdate sid (currentEarnings (fst (tick_session sid now s)))
            (elapsed_seconds now s) (remainingTime (status_update now s))
            (isOpenEnded s)
     else SessionComplete sid (currentEarnings (fst (tick_session sid now s)))
            (elapsed_seconds now s)]
  else [].
Proof.
  unfold tick_session, status_update.
  destruct (isActive s) eqn:Ha; [|reflexivity].
  destruct (isOpenEnded s) eqn:Ho; simpl; [rewrite Ha; reflexivity|].
  destruct (_ <? _)%float; simpl; [rewrite Ha|]; reflexivity.
Qed.

Lemma tick_session_room_events sid now s room :
  room_events room (snd (tick_session sid now s)) =
  if String.eqb sid room then snd (tick_session sid now s) else [].
Proof.
  rewrite tick_session_events. unfold room_events.
  destruct (isActive s); [|destruct (String.eqb sid room); reflexivity].
  destruct (isActive (fst (tick_session sid now s))); simpl;
    destruct (String.eqb sid room); reflexivity.
Qed.

Lemma tick_sessions_room_events_absent clock room m :
  ~ In room (map_keys m) ->
  room_events room (snd (tick_sessions clock m)) = [].
Proof.
  induction m as [|[k s] m IH]; [reflexivity|].
  rewrite tick_sessions_cons. simpl. intros Hnin.
  unfold room_events in *. rewrite List.filter_app, IH by tauto.
  fold (room_events room (snd (tick_session k (clock k) s))).
  rewrite tick_session_room_events.
  destruct (String.eqb k room) eqn:E; [|reflexivity].
  apply String.eqb_eq in E. tauto.
Qed.

(** With one entry per key, the events of a room are those of the session
    stored under it. *)
Lemma tick_sessions_room_events clock room m s :
  NoDup (map_keys m) -> map_get room m = Some s ->
  room_events room (snd (tick_sessions clock m)) =
  snd (tick_session room (clock room) s).
Proof.
  induction m as [|[k s'] m IH]; [discriminate|].
  intros Hnd Hget. simpl in Hnd, Hget. apply NoDup_cons in Hnd as [Hnin Hnd].
  rewrite tick_sessions_cons. cbn [snd].
  unfold room_events. rewrite List.filter_app.
  fold (room_events room (snd (tick_session k (clock k) s'))).
  fold (room_events room (snd (tick_sessions clock m))).
  rewrite tick_session_room_events.
  destruct (String.eqb room k) eqn:E.
  - apply String.eqb_eq in E. subst k. injection Hget as ->.
    rewrite String.eqb_refl, tick_sessions_room_events_absent.
    + apply app_nil_r.
    + intros Hin. apply Hnin. apply list_elem_of_In. exact Hin.
  - rewrite String.eqb_sym, E. simpl. apply IH; assumption.
Qed.

(** Whatever the callback emits for the session found under a key is
    among the events of the sweep. *)
Lemma tick_sessions_events_In clock room m s (e : event) :
  map_get room m = Some s ->
  In e (snd (tick_session room (clock room) s)) ->
  In e (snd (tick_sessions clock m)).
Proof.
  induction m as [|[k s'] m IH]; [discriminate|].
  simpl map_get. rewrite tick_sessions_cons. cbn [snd].
  intros Hget He. apply in_or_app.
  destruct (String.eqb room k) eqn:E.
  - apply String.eqb_eq in E. subst k. injection Hget as ->. left. exact He.
  - right. apply IH; assumption.
Qed.

End SweepEvents.

(** C4, as amended.  For a stored session and a query time, the status
    query and a sweep at that time leave the session with the same
    [isActive], [endTime], [duration] and [currentEarnings], and the same
    creation-time fields.  They differ in two ways.  The status query
    stores on an active session the elapsed seconds as [elapsedTime] and
    as [remainingTime] [null] when open-ended, the seconds left while the
    time is not up and zero on completion; the sweep leaves both fields as
    they were.  The sweep sends one event to the session's room, an
    earnings update carrying the earnings, the elapsed seconds and that
    same remaining time, or a completion with the earnings and the elapsed
    seconds; the status query sends no event, it answers with the fields
    it stored.  An inactive session is left as it is by both, and the
    sweep sends nothing for it. *)
Theorem status_query_matches_sweep
    (st : State) (sid : string) (now : Z) (clock : string -> Z) (s : Session) :
  map_get sid (sessions st) = Some s ->
  clock sid = now ->
  exists a b,
    map_get sid (sessions (fst (api_session_status st sid now))) = Some a /\
    map_get sid (sessions (fst (tick st clock))) = Some b /\
    isActive a = isActive b /\
    endTime a = endTime b /\
    duration a = duration b /\
    currentEarnings a = currentEarnings b /\
    a = with_times (elapsedTime a) (remainingTime a) b /\
    elapsedTime b = elapsedTime s /\
    remainingTime b = remainingTime s /\
    (isActive s = true -> elapsedTime a = VNum (elapsed_seconds now s)) /\
    (isActive s = true ->
     remainingTime a =
       if isOpenEnded s then VNull
       else if (elapsed_seconds now s <? ToNumber (totalHours s) * 3600)%float
            then VNum (ToNumber (totalHours s) * 3600 - elapsed_seconds now s)
            else VNum 0) /\
    (isActive s = false -> a = s /\ b = s) /\
    step st (OpStatus sid now) =
      (fst (api_session_status st sid now),
       Response (Status (currentEarnings a) (elapsedTime a) (remainingTime a)
                   (isOpenEnded a) (isActive a))) /\
    (let sent :=
       if isActive s then
         [if isActive b
          then EarningsUpdate sid (currentEarnings b) (elapsed_seconds now s)
                 (remainingTime a) (isOpenEnded s)
          else SessionComplete sid (currentEarnings b) (elapsed_seconds now s)]
       else [] in
     snd (step st (OpTick clock)) = Emitted (snd (tick st clock)) /\
     (forall e, In e sent -> In e (snd (tick st clock))) /\
     (NoDup (map_keys (sessions st)) ->
      room_events sid (snd (tick st clock)) = sent)).
Proof.
  intros Hget Hclock.
  exists (status_update now s), (fst (tick_session sid now s)).
  split.
  { rewrite api_session_status_get, String.eqb_refl, Hget. reflexivity. }
  split.
  { rewrite tick_state. simpl. rewrite tick_sessions_get, Hget, Hclock.
    reflexivity. }
  pose proof (status_update_tick_session sid now s) as Heq.
  destruct (tick_session_times sid now s) as [He Hr].
  split; [rewrite Heq; reflexivity|].
  split; [rewrite Heq; reflexivity|].
  split; [rewrite Heq; reflexivity|].
  split; [rewrite Heq; reflexivity|].
  split; [exact Heq|].
  split; [exact He|].
  split; [exact Hr|].
  split; [apply status_update_elapsedTime|].
  split; [apply status_update_remainingTime|].
  split.
  { intros Hin. rewrite status_update_inactive, tick_session_inactive
      by exact Hin. split; reflexivity. }
  split.
  { rewrite step_status. unfold api_session_status. rewrite Hget.
    reflexivity. }
  cbv zeta. rewrite <- (tick_session_events sid now s).
  split; [rewrite step_tick, tick_state; reflexivity|].
  rewrite tick_state. cbn [snd]. split.
  - intros e Hin. apply (tick_sessions_events_In clock sid _ s e Hget).
    rewrite Hclock. exact Hin.
  - intros Hnd. rewrite (tick_sessions_room_events _ _ _ _ Hnd Hget), Hclock.
    reflexivity.
Qed.

(** One second into the one-hour session: the status query stores 1 and
    3599, and the sweep sends them in its earnings update. *)
Lemma status_query_matches_sweep_witness :
  exists a b,
    map_get "0" (sessions (fst (api_session_status one_hour_state "0" 1000)))
      = Some a /\
    map_get "0" (sessions (fst (tick one_hour_state (fun _ => 1000%Z))))
      = Some b /\
    currentEarnings a = currentEarnings b /\
    a = with_times (elapsedTime a) (remainingTime a) b /\
    elapsedTime a = VNum 1 /\
    remainingTime a = VNum 3599 /\
    room_events "0" (snd (tick one_hour_state (fun _ => 1000%Z))) =
      [EarningsUpdate "0" (currentEarnings b) 1 (VNum 3599) false].
Proof.
  destruct (status_query_matches_sweep one_hour_state "0" 1000
              (fun _ => 1000%Z) one_hour_session eq_refl eq_refl)
    as (a & b & Ha & Hb & Hact & _ & _ & He & Hw & _ & _ & Hel & Hrem & _ & _
        & _ & _ & Hsent).
  exists a, b.
  split; [exact Ha|]. split; [exact Hb|]. split; [exact He|].
  split; [exact Hw|].
  specialize (Hel eq_refl). specialize (Hrem eq_refl).
  specialize (Hsent (NoDup_singleton _)).
  assert (Hb' : isActive b = true).
  { pose proof Hb as Hb2. vm_compute in Hb2. injection Hb2 as <-.
    reflexivity. }
  split; [rewrite Hel; vm_compute; reflexivity|].
  assert (Hr3599 : remainingTime a = VNum 3599)
    by (rewrite Hrem; vm_compute; reflexivity).
  split; [exact Hr3599|].
  rewrite Hsent. cbn [isActive one_hour_session]. rewrite Hb', Hr3599.
  f_equal.
Defined.

(** C4 as stated fails on [elapsedTime] and [remainingTime].  One second
    into the one-hour session, the status query stores 1 and 3599 on the
    session; after a sweep at the same time both are still [undefined]. *)
Lemma status_query_sweep_counterexample :
  exists a b,
    map_get "0" (sessions (fst (api_session_status one_hour_state "0" 1000)))
      = Some a /\
    map_get "0" (sessions (fst (tick one_hour_state (fun _ => 1000%Z))))
      = Some b /\
    elapsedTime a = VNum 1 /\ remainingTime a = VNum 3599 /\
    elapsedTime b = VUndefined /\ remainingTime b = VUndefined /\
    elapsedTime a <> elapsedTime b /\ remainingTime a <> remainingTime b.
Proof.
  eexists. eexists. split; [reflexivity|]. split; [reflexivity|].
  repeat split; try reflexivity; discriminate.
Qed.

(** ** What status queries and listings leave alone *)

(** C8.  Neither a status query (for any session id, at any time) nor a
    listing changes the [startTime], [hourlyRate] or [overtimeType] of any
    stored session; a listing changes nothing at all and returns the
    sessions as stored. *)
Theorem status_and_listing_keep_creation_fields
    (st : State) (sid : string) (now : Z) (key : string) (s : Session) :
  map_get key (sessions st) = Some s ->
  (exists s',
     map_get key (sessions (fst (step st (OpStatus sid now)))) = Some s' /\
     startTime s' = startTime s /\
     hourlyRate s' = hourlyRate s /\
     overtimeType s' = overtimeType s) /\
  step st OpSessions = (st, Response (SessionList (map_values (sessions st)))) /\
  In s (map_values (sessions st)).
Proof.
  intros Hget. split; [|split].
  - rewrite step_status. simpl. rewrite api_session_status_get, Hget.
    destruct (String.eqb key sid); simpl.
    + exists (status_update now s).
      destruct (status_update_frame now s) as (_ & Hst & Hr & Ht & _).
      auto.
    + exists s. auto.
  - reflexivity.
  - apply map_get_In in Hget. unfold map_values.
    apply (in_map snd) in Hget. exact Hget.
Qed.

Lemma status_and_listing_keep_creation_fields_witness :
  exists s',
    map_get "0" (sessions (fst (step one_hour_state (OpStatus "0" 1000))))
      = Some s' /\
    startTime s' = 0%Z /\ hourlyRate s' = 100%float /\
    overtimeType s' = "normal".
Proof.
  destruct (status_and_listing_keep_creation_fields one_hour_state "0" 1000
              "0" one_hour_session eq_refl) as [H _].
  exact H.
Defined.

(** ** Overtime tracking *)

Lemma tracking_of_update (tracking : gmap string Tracking) (hours : value) :
  tracking_of (updateUserOvertimeTracking tracking "default" hours) "default" =
  mkTracking
    (weekly (tracking_of tracking "default") + ToNumber hours)
    (yearly (tracking_of tracking "default") + ToNumber hours).
Proof.
  unfold updateUserOvertimeTracking, tracking_of.
  rewrite lookup_insert_eq. reflexivity.
Qed.

Lemma tracking_update_other (tracking : gmap string Tracking) (hours : value)
    (user : string) :
  user <> "default" ->
  updateUserOvertimeTracking tracking "default" hours !! user = tracking !! user.
Proof.
  intros Hne. unfold updateUserOvertimeTracking.
  apply lookup_insert_ne. congruence.
Qed.

(** C3, as amended.  A stop request that finds its session adds that
    session's [totalHours] ([null] counting as 0) to the [weekly] and to
    the [yearly] total of the default user, once per request, and changes
    no other user's entry; a stop request for an unknown id, a calculation,
    a start, a sweep, a status query, a listing and a tracking query leave
    the tracking map as it is. *)
Theorem tracking_changes_only_at_stop (st : State) (op : operation) :
  let st' := fst (step st op) in
  match op with
  | OpStop sid now =>
      match map_get sid (sessions st) with
      | Some s =>
          let before := tracking_of (userOvertimeTracking st) "default" in
          tracking_of (userOvertimeTracking st') "default" =
            mkTracking (weekly before + ToNumber (totalHours s))
                       (yearly before + ToNumber (totalHours s)) /\
          forall user : string, user <> "default" ->
            userOvertimeTracking st' !! user = userOvertimeTracking st !! user
      | None => userOvertimeTracking st' = userOvertimeTracking st
      end
  | _ => userOvertimeTracking st' = userOvertimeTracking st
  end.
Proof.
  destruct op as [body|body dateNow newDate|sid now| | |sid now|clock]; simpl.
  - reflexivity.
  - unfold api_start_session.
    destruct (required_fields body) as [[r t]|]; [|reflexivity].
    destruct (r <=? 0)%float; [reflexivity|].
    destruct_if;
      reflexivity.
  - unfold api_stop_session.
    destruct (map_get sid (sessions st)) as [s|]; simpl; [|reflexivity].
    split.
    + apply tracking_of_update.
    + intros user Hne. apply tracking_update_other. exact Hne.
  - reflexivity.
  - reflexivity.
  - unfold api_session_status.
    destruct (map_get sid (sessions st)); reflexivity.
  - rewrite tick_state. reflexivity.
Qed.

(** C3 as stated fails: a session can be counted twice.  A two-hour
    session is started and then stopped twice; the store still holds that
    one session, and the weekly and yearly totals are 4, not 2. *)
Lemma double_stop_counterexample :
  let ops := [OpStart two_hour_body 0 0; OpStop "0" 1000; OpStop "0" 2000] in
  let st := fst (run initial_state ops) in
  map_keys (sessions st) = ["0"] /\
  (exists s, map_get "0" (sessions st) = Some s /\ totalHours s = VNum 2) /\
  tracking_of (userOvertimeTracking st) "default" = mkTracking 4 4 /\
  (exists s1 s2,
     snd (run initial_state ops) =
       [Response (Started "0" (calculateOvertimePayFromRate 100 "normal" 2)
                    [] false);
        Response (Stopped s1); Response (Stopped s2)]).
Proof.
  intros ops st. split; [reflexivity|].
  split; [eexists; split; reflexivity|].
  split; [reflexivity|].
  eexists. eexists. reflexivity.
Qed.

(** C10.  Stopping a session whose [totalHours] is [null] calls
    [updateUserOvertimeTracking] with [null]; the weekly and yearly totals
    of the default user become [weekly + 0] and [yearly + 0], the same
    numbers as before, and no other user's entry changes. *)
Theorem stop_open_ended_keeps_tracking
    (st : State) (sid : string) (now : Z) (s : Session) :
  map_get sid (sessions st) = Some s ->
  totalHours s = VNull ->
  let st' := fst (api_stop_session st sid now) in
  let before := tracking_of (userOvertimeTracking st) "default" in
  let after := tracking_of (userOvertimeTracking st') "default" in
  userOvertimeTracking st' =
    updateUserOvertimeTracking (userOvertimeTracking st) "default" VNull /\
  weekly after = (weekly before + 0)%float /\
  yearly after = (yearly before + 0)%float /\
  same_number (weekly after) (weekly before) /\
  same_number (yearly after) (yearly before) /\
  forall user : string, user <> "default" ->
    userOvertimeTracking st' !! user = userOvertimeTracking st !! user.
Proof.
  intros Hget Hnull st' before after. subst st' before after.
  unfold api_stop_session. rewrite Hget. simpl. rewrite Hnull.
  rewrite tracking_of_update. simpl.
  split; [reflexivity|]. split; [reflexivity|]. split; [reflexivity|].
  split; [apply FloatFacts.add_zero_same|].
  split; [apply FloatFacts.add_zero_same|].
  intros user Hne. apply tracking_update_other. exact Hne.
Qed.

(** An open-ended session stopped after the two-hour session was: the
    totals stay at 2. *)
Lemma stop_open_ended_keeps_tracking_witness :
  let st :=
    fst (run initial_state
           [OpStart two_hour_body 0 0; OpStop "0" 1000;
            OpStart open_ended_body 5000 5000]) in
  tracking_of (userOvertimeTracking st) "default" = mkTracking 2 2 /\
  weekly (tracking_of (userOvertimeTracking (fst (api_stop_session st "5000" 9000)))
            "default") = (2 + 0)%float /\
  same_number
    (weekly (tracking_of
               (userOvertimeTracking (fst (api_stop_session st "5000" 9000)))
               "default"))
    2%float.
Proof.
  intros st.
  assert (Hget : exists s, map_get "5000" (sessions st) = Some s /\
                           totalHours s = VNull)
    by (eexists; split; reflexivity).
  destruct Hget as (s & Hget & Hnull).
  destruct (stop_open_ended_keeps_tracking st "5000" 9000 s Hget Hnull)
    as (_ & Hw & _ & Hsame & _).
  split; [reflexivity|]. split; [exact Hw | exact Hsame].
Defined.

(** ** Zero hours at the endpoints *)

Lemma or_num_zero : or_num (VNum 0) 1 = or_num VUndefined 1.
Proof. reflexivity. Qed.

Lemma or_null_zero : or_null (VNum 0) = or_null VUndefined.
Proof. reflexivity. Qed.

Lemma validate_one_hour (tracking : gmap string Tracking) (type : string) :
  isValid (validateOvertimeHours tracking 1 type "default") = true.
Proof. rewrite validateOvertimeHours_isValid. reflexivity. Qed.

(** C9.  A request with [hours: 0] is answered exactly as the same request
    without [hours]: past the rate and type checks, the calculation is
    made for 1 hour and flagged as a preview, and the session started is
    open-ended with [totalHours] [null]; the validator's error for
    non-positive hours is never the answer. *)
Theorem zero_hours_is_absent_hours
    (st : State) (rate : value) (type : option string) (dateNow newDate : Z) :
  let zero := mkBody rate type (VNum 0) in
  let absent := mkBody rate type VUndefined in
  let error := BadRequest "Overtime hours must be greater than 0" in
  api_calculate st zero = api_calculate st absent /\
  api_start_session st zero dateNow newDate =
    api_start_session st absent dateNow newDate /\
  api_calculate st zero <> error /\
  snd (api_start_session st zero dateNow newDate) <> error /\
  forall (r : float) (t : string),
    required_fields zero = Some (r, t) -> (r <=? 0)%float = false ->
    let c := calculateOvertimePayFromRate r t 1 in
    let w := warnings (validateOvertimeHours (userOvertimeTracking st) 1 t
                         "default") in
    api_calculate st zero = Calculated c w true /\
    snd (api_start_session st zero dateNow newDate) =
      Started (time_to_string dateNow) c w true /\
    exists session,
      map_get (time_to_string dateNow)
        (sessions (fst (api_start_session st zero dateNow newDate)))
        = Some session /\
      isOpenEnded session = true /\
      totalHours session = VNull /\
      calculation session = c.
Proof.
  intros zero absent error. subst zero absent error.
  unfold api_calculate, api_start_session, required_fields.
  cbn [body_hours body_hourlyRate body_overtimeType].
  rewrite or_num_zero, or_null_zero.
  change (truthy (VNum 0)) with (truthy VUndefined).
  split; [reflexivity|]. split; [reflexivity|].
  change (or_null VUndefined) with VNull.
  change (or_num VUndefined 1) with 1%float.
  change (or_num VNull 1) with 1%float.
  split; [|split].
  - destruct rate as [| |r]; try discriminate.
    destruct type as [t|]; [|discriminate].
    destruct (negb (truthy_num r) || negb (truthy_str t)); [discriminate|].
    destruct (r <=? 0)%float; [discriminate|].
    rewrite validate_one_hour. discriminate.
  - destruct rate as [| |r]; try discriminate.
    destruct type as [t|]; [|discriminate].
    destruct (negb (truthy_num r) || negb (truthy_str t)); [discriminate|].
    destruct (r <=? 0)%float; [discriminate|].
    rewrite validate_one_hour. discriminate.
  - intros r t Hreq Hpos. rewrite Hreq, Hpos, validate_one_hour. simpl.
    split; [reflexivity|]. split; [reflexivity|].
    eexists. split; [apply map_get_set_eq|]. repeat split.
Qed.

Lemma zero_hours_is_absent_hours_witness :
  api_calculate initial_state zero_hours_body =
    Calculated (calculateOvertimePayFromRate 100 "normal" 1) [] true /\
  snd (api_start_session initial_state zero_hours_body 7 7) =
    Started "7" (calculateOvertimePayFromRate 100 "normal" 1) [] true.
Proof.
  destruct (zero_hours_is_absent_hours initial_state (VNum 100)
              (Some "normal") 7 7) as (_ & _ & _ & _ & H).
  destruct (H 100%float "normal" eq_refl eq_refl) as (Hc & Hs & _).
  split; [exact Hc | exact Hs].
Defined.

(** ** Session ids *)

Section Ids.

Implicit Types (st : State) (m : SessionMap) (s : Session).

Lemma well_keyed_get m key s :
  well_keyed m -> map_get key m = Some s -> session_id s = key.
Proof.
  intros [_ Hall] Hget. apply map_get_In in Hget.
  rewrite Forall_forall in Hall.
  apply (Hall (key, s)). apply list_elem_of_In. exact Hget.
Qed.

Lemma tick_sessions_well_keyed clock m :
  well_keyed m -> well_keyed (fst (tick_sessions clock m)).
Proof.
  intros [Hnd Hall]. split.
  - rewrite tick_sessions_keys. exact Hnd.
  - clear Hnd. induction m as [|[k s] m IH]; [constructor|].
    rewrite tick_sessions_cons. simpl.
    apply Forall_cons in Hall as [Hk Hall]. constructor.
    + simpl in *. destruct (tick_session_frame k (clock k) s) as [Hid _].
      rewrite Hid. exact Hk.
    + apply IH. exact Hall.
Qed.

(** Every operation keeps the store well keyed. *)
Lemma step_well_keyed st op :
  well_keyed (sessions st) -> well_keyed (sessions (fst (step st op))).
Proof.
  intros Hwk.
  destruct op as [body|body dateNow newDate|sid now| | |sid now|clock]; simpl;
    try exact Hwk.
  - unfold api_start_session.
    destruct (required_fields body) as [[r t]|]; [|exact Hwk].
    destruct (r <=? 0)%float; [exact Hwk|].
    destruct_if;
      [exact Hwk|].
    simpl. apply well_keyed_set; [reflexivity | exact Hwk].
  - unfold api_stop_session.
    destruct (map_get sid (sessions st)) as [s|] eqn:G; [|exact Hwk].
    simpl. apply well_keyed_set; [|exact Hwk].
    simpl. exact (well_keyed_get _ _ _ Hwk G).
  - unfold api_session_status.
    destruct (map_get sid (sessions st)) as [s|] eqn:G; [|exact Hwk].
    simpl. apply well_keyed_set; [|exact Hwk].
    destruct (status_update_frame now s) as [Hid _]. rewrite Hid.
    exact (well_keyed_get _ _ _ Hwk G).
  - rewrite tick_state. simpl. apply tick_sessions_well_keyed. exact Hwk.
Qed.

Lemma run_well_keyed ops : forall st,
  well_keyed (sessions st) -> well_keyed (sessions (fst (run st ops))).
Proof.
  induction ops as [|op ops IH]; intros st Hwk; [exact Hwk|].
  rewrite run_cons. simpl. apply IH. apply step_well_keyed. exact Hwk.
Qed.

Lemma initial_well_keyed : well_keyed (sessions initial_state).
Proof. split; constructor. Qed.

(** In a well-keyed store the ids of the stored sessions are pairwise
    distinct. *)
Lemma well_keyed_ids m :
  well_keyed m -> map session_id (map_values m) = map_keys m.
Proof.
  intros [_ Hall]. induction m as [|[k s] m IH]; [reflexivity|].
  apply Forall_cons in Hall as [Hk Hall]. simpl in *.
  rewrite Hk, IH by exact Hall. reflexivity.
Qed.

End Ids.

(** C7, as amended.  A successful start, in any state the server can
    reach, stores the new session under the decimal rendering of its
    [Date.now()] reading; the ids of the stored sessions stay pairwise
    distinct and the other stored sessions are untouched; a different
    reading never renders to the same id; when the reading is later than
    the reading of every stored id the id is fresh and the session is
    appended after all earlier ones; when the id is already stored the new
    session takes the place of the stored one. *)
Theorem start_session_id
    (ops : list operation) (body : Body) (dateNow newDate : Z)
    (st' : State) (sid : string) (c : Calculation) (w : list warning)
    (o : bool) :
  let st := fst (run initial_state ops) in
  api_start_session st body dateNow newDate = (st', Started sid c w o) ->
  sid = time_to_string dateNow /\
  NoDup (map session_id (map_values (sessions st'))) /\
  (exists s,
     map_get sid (sessions st') = Some s /\ session_id s = sid /\
     startTime s = newDate /\ isActive s = true) /\
  (forall key : string, key <> sid ->
     map_get key (sessions st') = map_get key (sessions st)) /\
  (forall t : Z, t <> dateNow -> time_to_string t <> sid) /\
  ((forall t : Z, In (time_to_string t) (map_keys (sessions st)) ->
                  (t < dateNow)%Z) ->
   exists s, sessions st' = (sessions st ++ [(sid, s)])%list) /\
  (In sid (map_keys (sessions st)) ->
   map_keys (sessions st') = map_keys (sessions st)).
Proof.
  intros st Hstart.
  assert (Hwk : well_keyed (sessions st))
    by (apply run_well_keyed, initial_well_keyed).
  assert (Hwk' : well_keyed (sessions st')).
  { replace st' with (fst (step st (OpStart body dateNow newDate))).
    - apply step_well_keyed. exact Hwk.
    - simpl. rewrite Hstart. reflexivity. }
  unfold api_start_session in Hstart.
  destruct (required_fields body) as [[r t]|]; [|discriminate].
  destruct (r <=? 0)%float; [discriminate|].
  match type of Hstart with
  | context [if ?b then _ else _] => destruct b
  end; [discriminate|].
  injection Hstart as <- <- _ _ _.
  cbn [sessions].
  split; [reflexivity|].
  split; [rewrite well_keyed_ids by exact Hwk'; apply Hwk'|].
  split.
  { eexists. split; [apply map_get_set_eq|]. repeat split. }
  split; [intros key Hne; apply map_get_set_ne; exact Hne|].
  split.
  { intros t' Hne Heq. apply Hne. revert Heq. unfold time_to_string.
    apply (inj pretty). }
  split.
  - intros Hlater. eexists. apply map_set_absent.
    apply map_get_None. intros Hin. apply Hlater in Hin. lia.
  - intros Hin. apply map_keys_set_present.
    intros Hnone. apply map_get_None in Hnone. tauto.
Qed.

Lemma start_session_id_witness :
  exists s,
    sessions (fst (api_start_session one_hour_state two_hour_body 5 6)) =
    (sessions one_hour_state ++ [("5", s)])%list /\
    startTime s = 6%Z.
Proof.
  destruct (start_session_id [OpStart one_hour_body 0 0] two_hour_body 5 6
              (fst (api_start_session one_hour_state two_hour_body 5 6))
              "5" (calculateOvertimePayFromRate 100 "normal" 2) [] false
              eq_refl)
    as (_ & _ & (s & Hget & _ & Htime & _) & _ & _ & Happ & _).
  destruct Happ as [s' Happ].
  - intros t [Ht|[]]. change (pretty 0%Z = pretty t) in Ht.
    apply (inj pretty) in Ht. lia.
  - exists s'. split; [exact Happ|].
    rewrite Happ in Hget. vm_compute in Hget. injection Hget as <-.
    exact Htime.
Defined.

(** C7 as stated fails when two requests read the same millisecond.  Both
    starts succeed and both are answered with the id ["5"]: the second id
    is neither fresh nor greater, and the store ends with one session, the
    two-hour one, the one-hour session having been replaced. *)
Lemma same_millisecond_counterexample :
  let ops := [OpStart one_hour_body 5 5; OpStart two_hour_body 5 5] in
  snd (run initial_state ops) =
    [Response (Started "5" (calculateOvertimePayFromRate 100 "normal" 1)
                 [] false);
     Response (Started "5" (calculateOvertimePayFromRate 100 "normal" 2)
                 [] false)] /\
  map_keys (sessions (fst (run initial_state ops))) = ["5"] /\
  exists s,
    map_values (sessions (fst (run initial_state ops))) = [s] /\
    totalHours s = VNum 2.
Proof.
  intros ops. split; [reflexivity|]. split; [reflexivity|].
  eexists. split; reflexivity.
Qed.

(** ** More on binary64 order *)

Module FloatOrder.

(** Two numbers are unordered exactly when one of them is [NaN]. *)
Lemma SFcompare_None (x y : spec_float) :
  SFcompare x y = None <-> x = S754_nan \/ y = S754_nan.
Proof.
  destruct x as [sx|sx| |sx mx ex], y as [sy|sy| |sy my ey]; simpl;
    split; try discriminate; try tauto;
    intros [H|H]; discriminate H.
Qed.

Lemma is_nan_spec (x : float) :
  PrimFloat.is_nan x = true <-> Prim2SF x = S754_nan.
Proof.
  unfold PrimFloat.is_nan. rewrite FloatAxioms.eqb_spec. unfold SFeqb.
  split.
  - intros H. destruct (Prim2SF x) eqn:E; try reflexivity;
      rewrite FloatFacts.SFcompare_refl in H by discriminate; discriminate H.
  - intros ->. reflexivity.
Qed.

(** A truthy number that is not [<= 0] is above zero. *)
Lemma truthy_not_le_positive (x : float) :
  truthy_num x = true -> PrimFloat.leb x 0 = false -> PrimFloat.ltb 0 x = true.
Proof.
  unfold truthy_num. intros Ht Hle.
  apply negb_true_iff, orb_false_iff in Ht as [_ Hnan].
  assert (Hx : Prim2SF x <> S754_nan).
  { intros H. apply is_nan_spec in H. congruence. }
  revert Hle. rewrite FloatAxioms.ltb_spec, FloatAxioms.leb_spec.
  unfold SFltb, SFleb.
  rewrite (FloatFacts.SFcompare_swap (Prim2SF x) (Prim2SF 0)).
  destruct (SFcompare (Prim2SF x) (Prim2SF 0)) as [[]|] eqn:E; simpl;
    try discriminate; try reflexivity.
  apply SFcompare_None in E as [E|E]; [congruence | discriminate E].
Qed.

(** A number is below zero exactly when it is [<= 0] and truthy. *)
Lemma negative_iff (x : float) :
  PrimFloat.ltb x 0 = true <->
  PrimFloat.leb x 0 = true /\ truthy_num x = true.
Proof.
  unfold truthy_num, PrimFloat.is_nan.
  rewrite FloatAxioms.ltb_spec, FloatAxioms.leb_spec, !FloatAxioms.eqb_spec.
  unfold SFltb, SFleb, SFeqb.
  destruct (SFcompare (Prim2SF x) (Prim2SF 0)) as [[]|] eqn:E; simpl.
  - split; [discriminate | intros [_ H]; discriminate H].
  - split; [intros _|reflexivity]. split; [reflexivity|].
    rewrite FloatFacts.SFcompare_refl; [reflexivity|].
    intros Hnan. rewrite Hnan in E. discriminate E.
  - split; [discriminate | intros [H _]; discriminate H].
  - split; [discriminate | intros [H _]; discriminate H].
Qed.

(** Above 8 is above 4. *)
Lemma above_8_above_4 (x : float) :
  PrimFloat.ltb 8 x = true -> PrimFloat.ltb 4 x = true.
Proof.
  rewrite !FloatAxioms.ltb_spec. unfold SFltb.
  change (Prim2SF 8) with (S754_finite false 4503599627370496 (-49)).
  change (Prim2SF 4) with (S754_finite false 4503599627370496 (-50)).
  destruct (Prim2SF x) as [s|s| |s m e];
    cbn -[Z.compare Pos.compare_cont]; try discriminate.
  - destruct s; [discriminate | reflexivity].
  - destruct s; [discriminate|].
    destruct (Z.compare_spec (-49) e) as [He|He|He];
      destruct (Z.compare_spec (-50) e) as [He'|He'|He']; try lia;
      try discriminate; reflexivity.
Qed.

End FloatOrder.

(** ** Which answer a calculation request gets *)

Section Answers.

Implicit Types (st : State) (body : Body).

Lemma or_num_or_null (v : value) : or_num (or_null v) 1 = or_num v 1.
Proof.
  destruct v as [| |x]; try reflexivity.
  unfold or_null. simpl. destruct (truthy_num x) eqn:E; simpl.
  - rewrite E. reflexivity.
  - reflexivity.
Qed.

Lemma truthy_or_null (v : value) : truthy (or_null v) = truthy v.
Proof.
  destruct v as [| |x]; try reflexivity.
  unfold or_null. simpl. destruct (truthy_num x) eqn:E; simpl; auto.
Qed.

Lemma required_fields_Some body r t :
  required_fields body = Some (r, t) <->
  body_hourlyRate body = VNum r /\ truthy_num r = true /\
  body_overtimeType body = Some t /\ truthy_str t = true.
Proof.
  unfold required_fields.
  destruct (body_hourlyRate body) as [| |x], (body_overtimeType body) as [t'|];
    try (split; [discriminate | intros (H & _ & H' & _); discriminate]).
  destruct (truthy_num x) eqn:Ex, (truthy_str t') eqn:Et; simpl; split;
    try discriminate;
    try (intros [= -> ->]; auto);
    intros ([= ->] & Hr & [= ->] & Ht); congruence.
Qed.

Lemma required_fields_None body :
  required_fields body = None <->
  truthy (body_hourlyRate body) = false \/
  has_type (body_overtimeType body) = false.
Proof.
  unfold required_fields.
  destruct (body_hourlyRate body) as [| |x], (body_overtimeType body) as [t'|];
    simpl; try tauto.
  destruct (truthy_num x), (truthy_str t'); simpl; split;
    try discriminate; try tauto; intros [H|H]; discriminate H.
Qed.

(** A truthy number is above zero or below zero, and which one the test
    [<= 0] tells. *)
Lemma truthy_sign (x : float) :
  truthy_num x = true ->
  ((x <=? 0)%float = true /\ (x <? 0)%float = true /\ (0 <? x)%float = false) \/
  ((x <=? 0)%float = false /\ (x <? 0)%float = false /\ (0 <? x)%float = true).
Proof.
  intros Ht. destruct (x <=? 0)%float eqn:Hle.
  - left. split; [reflexivity|]. split.
    + apply FloatOrder.negative_iff. auto.
    + destruct (0 <? x)%float eqn:E; [|reflexivity].
      apply FloatFacts.ltb_leb_false in E. congruence.
  - right. split; [reflexivity|]. split.
    + destruct (x <? 0)%float eqn:E; [|reflexivity].
      apply FloatOrder.negative_iff in E as [E _]. congruence.
    + apply FloatOrder.truthy_not_le_positive; assumption.
Qed.

Lemma falsy_sign (x : float) :
  truthy_num x = false -> (x <? 0)%float = false /\ (0 <? x)%float = false.
Proof.
  intros Hf. split.
  - destruct (x <? 0)%float eqn:E; [|reflexivity].
    apply FloatOrder.negative_iff in E as [_ E]. congruence.
  - destruct (0 <? x)%float eqn:E; [|reflexivity].
    apply FloatFacts.positive_truthy in E. congruence.
Qed.

(** The hours a request is validated and calculated with are not [<= 0]
    unless the field holds a number below zero. *)
Lemma hours_to_use_sign (hours : value) :
  (or_num hours 1 <=? 0)%float = is_negative hours.
Proof.
  destruct hours as [| |h]; try reflexivity. simpl.
  destruct (truthy_num h) eqn:Ht.
  - destruct (truthy_sign h Ht) as [(-> & -> & _)|(-> & -> & _)]; reflexivity.
  - destruct (falsy_sign h Ht) as [-> _]. reflexivity.
Qed.

End Answers.

(** The answers of [POST /api/calculate], case by case. *)
Lemma api_calculate_cases (st : State) (body : Body) :
  (truthy (body_hourlyRate body) = false \/
   has_type (body_overtimeType body) = false) /\
  api_calculate st body =
    BadRequest "Hourly rate and overtime type are required"
  \/
  (is_negative (body_hourlyRate body) = true /\
   is_positive (body_hourlyRate body) = false /\
   truthy (body_hourlyRate body) = true /\
   has_type (body_overtimeType body) = true) /\
  api_calculate st body = BadRequest "Invalid hourly rate"
  \/
  (is_positive (body_hourlyRate body) = true /\
   is_negative (body_hourlyRate body) = false /\
   truthy (body_hourlyRate body) = true /\
   has_type (body_overtimeType body) = true /\
   is_negative (body_hours body) = true) /\
  api_calculate st body = BadRequest "Overtime hours must be greater than 0"
  \/
  (is_positive (body_hourlyRate body) = true /\
   is_negative (body_hourlyRate body) = false /\
   truthy (body_hourlyRate body) = true /\
   has_type (body_overtimeType body) = true /\
   is_negative (body_hours body) = false) /\
  exists r t,
    required_fields body = Some (r, t) /\
    api_calculate st body =
      Calculated
        (calculateOvertimePayFromRate r t (or_num (body_hours body) 1))
        (warnings (validateOvertimeHours (userOvertimeTracking st)
                     (or_num (body_hours body) 1) t "default"))
        (negb (truthy (body_hours body))).
Proof.
  unfold api_calculate.
  destruct (required_fields body) as [[r t]|] eqn:Hreq.
  - right. apply required_fields_Some in Hreq as (Hr & Htr & Ht & Htt).
    rewrite Hr, Ht. cbn [truthy has_type is_positive is_negative].
    destruct (truthy_sign r Htr) as [(Hle & Hlt & Hgt)|(Hle & Hlt & Hgt)];
      rewrite Hle.
    + left. auto.
    + right.
      rewrite validateOvertimeHours_isValid, validateOvertimeHours_errors.
      rewrite hours_to_use_sign.
      destruct (is_negative (body_hours body)) eqn:Hneg.
      * left. auto 10.
      * right. split; [auto 10|]. exists r, t. split; reflexivity.
  - left. split; [|reflexivity]. apply required_fields_None. exact Hreq.
Qed.



(** X2.  [POST /api/start-session] validates as [POST /api/calculate]
    does.  Where the calculation is refused, the start is refused with the
    same message and the store is left as it was; where the calculation
    succeeds, the start succeeds with the same calculation and warnings,
    its [isOpenEnded] flag is the calculation's [isPreview] flag, and the
    session it stores is active, has earned nothing yet and carries that
    calculation and those warnings. *)
Theorem start_session_validates_like_calculate
    (st : State) (body : Body) (dateNow newDate : Z) :
  match api_calculate st body with
  | BadRequest e =>
      api_start_session st body dateNow newDate = (st, BadRequest e)
  | Calculated c w p =>
      exists session,
        api_start_session st body dateNow newDate =
          (mkState (map_set (time_to_string dateNow) session (sessions st))
             (userOvertimeTracking st),
           Started (time_to_string dateNow) c w p) /\
        calculation session = c /\
        session_warnings session = w /\
        isOpenEnded session = p /\
        isActive session = true /\
        currentEarnings session = 0%float /\
        startTime session = newDate /\
        totalHours session = or_null (body_hours body)
  | _ => False
  end.
Proof.
  unfold api_calculate, api_start_session.
  destruct (required_fields body) as [[r t]|]; [|reflexivity].
  destruct (r <=? 0)%float; [reflexivity|].
  rewrite or_num_or_null, truthy_or_null.
  destruct (isValid _); simpl; [|reflexivity].
  eexists. split; [reflexivity|]. repeat split.
Qed.

(** ** Invariants of the session store *)

Section StoreInvariants.

Variable P : string -> Session -> Prop.

Lemma all_sessions_get (m : SessionMap) (key : string) (s : Session) :
  all_sessions P m -> map_get key m = Some s -> P key s.
Proof.
  unfold all_sessions. rewrite Forall_forall. intros Hall Hget.
  apply map_get_In in Hget. apply (Hall (key, s)).
  apply list_elem_of_In. exact Hget.
Qed.

Lemma all_sessions_set (m : SessionMap) (key : string) (s : Session) :
  all_sessions P m -> P key s -> all_sessions P (map_set key s m).
Proof.
  unfold all_sessions. intros Hall Hs.
  induction m as [|[k s'] m IH]; simpl.
  - constructor; [exact Hs | constructor].
  - apply Forall_cons in Hall as [Hk Hall].
    destruct (String.eqb key k) eqn:E.
    + apply String.eqb_eq in E. subst k. constructor; assumption.
    + constructor; [exact Hk | apply IH; exact Hall].
Qed.

Lemma all_sessions_tick (clock : string -> Z) (m : SessionMap) :
  (forall k now s, P k s -> P k (fst (tick_session k now s))) ->
  all_sessions P m -> all_sessions P (fst (tick_sessions clock m)).
Proof.
  unfold all_sessions. intros Htick Hall.
  induction m as [|[k s] m IH]; [constructor|].
  rewrite tick_sessions_cons. simpl.
  apply Forall_cons in Hall as [Hk Hall].
  constructor; [apply Htick; exact Hk | apply IH; exact Hall].
Qed.

(** What it takes for [P] to hold of every session the server ever
    stores: the session a start stores, the session a stop leaves, and the
    session a status query or a sweep leaves have it. *)
Hypothesis P_start : forall st body dateNow newDate st' sid c w o s,
  api_start_session st body dateNow newDate = (st', Started sid c w o) ->
  map_get sid (sessions st') = Some s -> P sid s.

Hypothesis P_stop : forall key now s,
  P key s ->
  P key (set_duration (elapsed_seconds now s)
           (set_endTime now (set_isActive false s))).

Hypothesis P_status : forall key now s, P key s -> P key (status_update now s).

Hypothesis P_tick : forall key now s,
  P key s -> P key (fst (tick_session key now s)).

Lemma step_all_sessions (st : State) (op : operation) :
  all_sessions P (sessions st) ->
  all_sessions P (sessions (fst (step st op))).
Proof.
  intros Hall.
  destruct op as [body|body dateNow newDate|sid now| | |sid now|clock]; simpl;
    try exact Hall.
  - destruct (api_start_session st body dateNow newDate) as [st' r] eqn:E.
    simpl. pose proof E as E'. unfold api_start_session in E.
    destruct (required_fields body) as [[rate t]|];
      [|injection E as <- _; exact Hall].
    destruct (rate <=? 0)%float; [injection E as <- _; exact Hall|].
    destruct (negb _); [injection E as <- _; exact Hall|].
    injection E as <- <-. simpl. apply all_sessions_set; [exact Hall|].
    eapply P_start; [exact E'|]. simpl. apply map_get_set_eq.
  - unfold api_stop_session.
    destruct (map_get sid (sessions st)) as [s|] eqn:G; [|exact Hall].
    simpl. apply all_sessions_set; [exact Hall|].
    apply (P_stop sid now s). exact (all_sessions_get _ _ _ Hall G).
  - unfold api_session_status.
    destruct (map_get sid (sessions st)) as [s|] eqn:G; [|exact Hall].
    simpl. apply all_sessions_set; [exact Hall|].
    apply P_status. exact (all_sessions_get _ _ _ Hall G).
  - rewrite tick_state. simpl. apply all_sessions_tick; assumption.
Qed.

Lemma run_all_sessions (ops : list operation) : forall st,
  all_sessions P (sessions st) ->
  all_sessions P (sessions (fst (run st ops))).
Proof.
  induction ops as [|op ops IH]; intros st Hall; [exact Hall|].
  rewrite run_cons. simpl. apply IH. apply step_all_sessions. exact Hall.
Qed.

End StoreInvariants.

Section SessionInvariants.

Implicit Types (s : Session) (key : string) (now : Z).

Lemma creation_consistent_frame key s s' :
  session_id s' = session_id s -> hourlyRate s' = hourlyRate s ->
  overtimeType s' = overtimeType s -> totalHours s' = totalHours s ->
  calculation s' = calculation s -> isOpenEnded s' = isOpenEnded s ->
  creation_consistent key s -> creation_consistent key s'.
Proof.
  unfold creation_consistent.
  intros -> -> -> -> -> ->. tauto.
Qed.

Lemma creation_consistent_start st body dateNow newDate st' sid c w o s :
  api_start_session st body dateNow newDate = (st', Started sid c w o) ->
  map_get sid (sessions st') = Some s -> creation_consistent sid s.
Proof.
  unfold api_start_session.
  destruct (required_fields body) as [[r t]|] eqn:Hreq; [|discriminate].
  apply required_fields_Some in Hreq as (_ & Htr & _ & Htt).
  destruct (truthy_sign r Htr) as [(Hle & _)|(Hle & _ & Hpos)]; rewrite Hle;
    [discriminate|].
  rewrite validateOvertimeHours_isValid.
  destruct (or_num (or_null (body_hours body)) 1 <=? 0)%float eqn:Hh;
    [discriminate|].
  simpl. intros [= <- <- _ _ _]. simpl. rewrite map_get_set_eq.
  intros [= <-]. unfold creation_consistent; simpl.
  repeat split; try assumption.
  rewrite or_num_or_null in Hh.
  destruct (body_hours body) as [| |h]; try (left; reflexivity).
  unfold or_null. simpl in *. destruct (truthy_num h) eqn:Hth.
  - right. exists h. split; [reflexivity|].
    apply FloatOrder.truthy_not_le_positive; assumption.
  - left. reflexivity.
Qed.

Lemma creation_consistent_stop key now s :
  creation_consistent key s ->
  creation_consistent key
    (set_duration (elapsed_seconds now s)
       (set_endTime now (set_isActive false s))).
Proof. apply creation_consistent_frame; reflexivity. Qed.

Lemma creation_consistent_status key now s :
  creation_consistent key s -> creation_consistent key (status_update now s).
Proof.
  destruct (status_update_frame now s) as (H1 & _ & H2 & H3 & H4 & H5 & H6).
  apply creation_consistent_frame; assumption.
Qed.

Lemma creation_consistent_tick key now s :
  creation_consistent key s ->
  creation_consistent key (fst (tick_session key now s)).
Proof.
  destruct (tick_session_frame key now s) as (H1 & _ & H2 & H3 & H4 & H5 & H6).
  apply creation_consistent_frame; assumption.
Qed.

Lemma termination_consistent_start st body dateNow newDate st' sid c w o s :
  api_start_session st body dateNow newDate = (st', Started sid c w o) ->
  map_get sid (sessions st') = Some s -> termination_consistent s.
Proof.
  unfold api_start_session.
  destruct (required_fields body) as [[r t]|]; [|discriminate].
  destruct (r <=? 0)%float; [discriminate|].
  destruct (negb _); [discriminate|].
  intros [= <- <- _ _ _]. simpl. rewrite map_get_set_eq.
  intros [= <-]. left. repeat split.
Qed.

Lemma termination_consistent_stop now s :
  termination_consistent
    (set_duration (elapsed_seconds now s)
       (set_endTime now (set_isActive false s))).
Proof. right. simpl. eauto. Qed.

Lemma termination_consistent_status now s :
  termination_consistent s -> termination_consistent (status_update now s).
Proof.
  unfold status_update. intros [(Ha & He & Hd)|(Ha & He & Hd)]; rewrite Ha.
  - destruct (isOpenEnded s); [left; simpl; auto|].
    destruct_if; [left | right]; simpl; eauto.
  - right. auto.
Qed.

Lemma termination_consistent_tick key now s :
  termination_consistent s ->
  termination_consistent (fst (tick_session key now s)).
Proof.
  unfold tick_session. intros [(Ha & He & Hd)|(Ha & He & Hd)]; rewrite Ha.
  - destruct (isOpenEnded s); [left; simpl; auto|].
    destruct_if; [left | right]; simpl; eauto.
  - right. auto.
Qed.

End SessionInvariants.


(** X4.  In every state the server can reach, a stored session is either
    active with no [endTime] and no [duration], or inactive with both set:
    the end of a session is recorded exactly when it stops being active. *)
Theorem stored_sessions_record_their_end (ops : list operation) :
  all_sessions (fun _ => termination_consistent)
    (sessions (fst (run initial_state ops))).
Proof.
  apply run_all_sessions.
  - exact termination_consistent_start.
  - intros key now s _. apply termination_consistent_stop.
  - intros key. apply termination_consistent_status.
  - intros key. apply termination_consistent_tick.
  - constructor.
Qed.

(** ** What the store and the tracking map never do *)

Section Growth.

Implicit Types (st : State) (s : Session) (sid : string).

Lemma map_keys_set (key : string) (s : Session) (m : SessionMap) :
  exists extra,
    map_keys (map_set key s m) = (map_keys m ++ extra)%list /\
    length extra <= 1.
Proof.
  destruct (map_get key m) eqn:G.
  - exists []. rewrite map_keys_set_present by congruence.
    rewrite app_nil_r. split; [reflexivity | simpl; lia].
  - exists [key]. rewrite map_set_absent by exact G.
    unfold map_keys. rewrite map_app. split; [reflexivity | simpl; lia].
Qed.

Lemma step_keys_grow st op :
  exists extra,
    map_keys (sessions (fst (step st op))) =
      (map_keys (sessions st) ++ extra)%list /\
    length extra <= (if is_start op then 1 else 0).
Proof.
  destruct op as [body|body dateNow newDate|sid now| | |sid now|clock];
    cbn [is_start];
    try (exists []; rewrite app_nil_r; split; [reflexivity | simpl; lia]).
  - simpl. unfold api_start_session.
    destruct (required_fields body) as [[r t]|];
      [|exists []; rewrite app_nil_r; split; [reflexivity | simpl; lia]].
    destruct (r <=? 0)%float;
      [exists []; rewrite app_nil_r; split; [reflexivity | simpl; lia]|].
    destruct (negb _);
      [exists []; rewrite app_nil_r; split; [reflexivity | simpl; lia]|].
    simpl. apply map_keys_set.
  - exists []. rewrite app_nil_r. split; [|simpl; lia].
    simpl. unfold api_stop_session.
    destruct (map_get sid (sessions st)) eqn:G; [|reflexivity].
    simpl. apply map_keys_set_present. congruence.
  - exists []. rewrite app_nil_r. split; [|simpl; lia].
    rewrite step_status. apply api_session_status_keys.
  - exists []. rewrite app_nil_r. split; [|simpl; lia].
    rewrite step_tick. apply tick_sessions_keys.
Qed.

(** An ended session stays ended, with the earnings it ended with, under
    every operation that is not a start. *)
Lemma step_keeps_ended st op sid s :
  is_start op = false ->
  map_get sid (sessions st) = Some s -> isActive s = false ->
  exists s',
    map_get sid (sessions (fst (step st op))) = Some s' /\
    isActive s' = false /\ currentEarnings s' = currentEarnings s /\
    startTime s' = startTime s.
Proof.
  intros Hop Hget Hin.
  destruct op as [body|body dateNow newDate|sid' now| | |sid' now|clock];
    try discriminate; try solve [exists s; simpl; auto].
  - simpl. unfold api_stop_session.
    destruct (map_get sid' (sessions st)) as [s0|] eqn:G; simpl;
      [|exists s; auto].
    destruct (String.eqb sid sid') eqn:E.
    + apply String.eqb_eq in E. subst sid'. rewrite map_get_set_eq.
      eexists. split; [reflexivity|]. simpl.
      assert (s0 = s) by congruence. subst s0. auto.
    + apply String.eqb_neq in E. rewrite map_get_set_ne by exact E.
      exists s. auto.
  - rewrite step_status. simpl. rewrite api_session_status_get, Hget. simpl.
    rewrite status_update_inactive by exact Hin.
    exists s. destruct (String.eqb sid sid'); auto.
  - rewrite step_tick. simpl. rewrite tick_sessions_get, Hget. simpl.
    rewrite tick_session_inactive by exact Hin. exists s. auto.
Qed.

End Growth.

(** X5.  Sessions are never removed or reordered: after any sequence of
    operations the keys the store had are still there, in the same order,
    followed by at most one new key per start request. *)
Theorem store_only_grows (ops : list operation) : forall st : State,
  exists extra,
    map_keys (sessions (fst (run st ops))) =
      (map_keys (sessions st) ++ extra)%list /\
    length extra <= length (List.filter is_start ops).
Proof.
  induction ops as [|op ops IH]; intros st.
  - exists []. rewrite app_nil_r. split; [reflexivity | simpl; lia].
  - rewrite run_cons. cbn [fst].
    destruct (step_keys_grow st op) as (e1 & H1 & L1).
    destruct (IH (fst (step st op))) as (e2 & H2 & L2).
    exists (e1 ++ e2)%list. rewrite H2, H1, <- app_assoc.
    split; [reflexivity|]. rewrite length_app. simpl.
    destruct (is_start op); simpl in *; lia.
Qed.

(** X6.  Once a session is inactive it stays inactive and keeps the
    earnings it had, through every stop request, status query, sweep,
    listing, tracking query and calculation; only a start request, which
    may store a new session under the same id, is left out. *)
Theorem ended_session_stays_ended (ops : list operation) :
  forall (st : State) (sid : string) (s : Session),
  forallb (fun op => negb (is_start op)) ops = true ->
  map_get sid (sessions st) = Some s -> isActive s = false ->
  exists s',
    map_get sid (sessions (fst (run st ops))) = Some s' /\
    isActive s' = false /\ currentEarnings s' = currentEarnings s /\
    startTime s' = startTime s.
Proof.
  induction ops as [|op ops IH]; intros st sid s Hops Hget Hin.
  - exists s. auto.
  - simpl in Hops. apply andb_prop in Hops as [Hop Hops].
    apply negb_true_iff in Hop.
    destruct (step_keeps_ended st op sid s Hop Hget Hin)
      as (s1 & Hget1 & Hin1 & He1 & Hs1).
    destruct (IH (fst (step st op)) sid s1 Hops Hget1 Hin1)
      as (s2 & Hget2 & Hin2 & He2 & Hs2).
    rewrite run_cons. cbn [fst]. exists s2.
    repeat split; try assumption; congruence.
Qed.

Lemma ended_session_stays_ended_witness :
  let st := fst (run one_hour_state [OpStop "0" 1500]) in
  exists s',
    map_get "0"
      (sessions (fst (run st [OpTick (fun _ => 2000%Z); OpStop "0" 2500;
                              OpStatus "0" 3000]))) = Some s' /\
    isActive s' = false /\ currentEarnings s' = 0%float.
Proof.
  intros st.
  assert (Hget : exists s, map_get "0" (sessions st) = Some s /\
                           isActive s = false /\ currentEarnings s = 0%float)
    by (eexists; repeat split; reflexivity).
  destruct Hget as (s & Hget & Hin & He).
  destruct (ended_session_stays_ended
              [OpTick (fun _ => 2000%Z); OpStop "0" 2500; OpStatus "0" 3000]
              st "0" s eq_refl Hget Hin) as (s' & Hg & Hi & He' & _).
  exists s'. repeat split; try assumption. congruence.
Defined.

Lemma step_tracking_consistent (st : State) (op : operation) :
  tracking_consistent (userOvertimeTracking st) ->
  tracking_consistent (userOvertimeTracking (fst (step st op))).
Proof.
  intros Htc.
  destruct op as [body|body dateNow newDate|sid now| | |sid now|clock]; simpl;
    try exact Htc.
  - unfold api_start_session.
    destruct (required_fields body) as [[r t]|]; [|exact Htc].
    destruct (r <=? 0)%float; [exact Htc|].
    destruct (negb _); exact Htc.
  - unfold api_stop_session.
    destruct (map_get sid (sessions st)) as [s|]; [|exact Htc].
    simpl. destruct Htc as [Hother Heq]. split.
    + intros user Hne. rewrite tracking_update_other by exact Hne.
      apply Hother. exact Hne.
    + rewrite tracking_of_update. simpl. rewrite Heq. reflexivity.
  - unfold api_session_status.
    destruct (map_get sid (sessions st)); exact Htc.
  - rewrite tick_state. exact Htc.
Qed.

(** X7.  In every state the server can reach the tracking map holds no
    entry but the default user's, and that user's weekly and yearly totals
    are the same number: both start at 0, every stop adds the same hours
    to both, and nothing ever resets either. *)
Theorem weekly_and_yearly_totals_agree (ops : list operation) :
  let st := fst (run initial_state ops) in
  (forall user : string, user <> "default" ->
     userOvertimeTracking st !! user = None) /\
  weekly (tracking_of (userOvertimeTracking st) "default") =
  yearly (tracking_of (userOvertimeTracking st) "default") /\
  api_overtime_tracking st =
    TrackingInfo (tracking_of (userOvertimeTracking st) "default").
Proof.
  intros st. subst st.
  assert (H : forall ops st,
             tracking_consistent (userOvertimeTracking st) ->
             tracking_consistent (userOvertimeTracking (fst (run st ops)))).
  { clear ops. induction ops as [|op ops IH]; intros st Htc; [exact Htc|].
    rewrite run_cons. cbn [fst]. apply IH, step_tracking_consistent, Htc. }
  destruct (H ops initial_state) as [Hother Heq].
  - split; [intros user _; apply lookup_empty | reflexivity].
  - split; [exact Hother|]. split; [exact Heq | reflexivity].
Qed.

(** ** What a sweep sends *)

Lemma tick_session_rooms (sid : string) (now : Z) (s : Session) :
  map event_room (snd (tick_session sid now s)) =
  if isActive s then [sid] else [].
Proof.
  unfold tick_session. destruct (isActive s); [|reflexivity].
  destruct (isOpenEnded s); [reflexivity|]. destruct_if; reflexivity.
Qed.

(** X8.  A sweep sends exactly one event to the room of each active
    session, in the order the sessions were stored, and nothing for the
    inactive ones; it keeps every key in place. *)
Theorem sweep_sends_one_event_per_active_session
    (st : State) (clock : string -> Z) :
  map event_room (snd (tick st clock)) = active_keys (sessions st) /\
  length (snd (tick st clock)) = length (active_keys (sessions st)) /\
  map_keys (sessions (fst (tick st clock))) = map_keys (sessions st).
Proof.
  rewrite tick_state. cbn [fst snd sessions].
  assert (H : map event_room (snd (tick_sessions clock (sessions st))) =
              active_keys (sessions st)).
  { induction (sessions st) as [|[k s] m IH]; [reflexivity|].
    rewrite tick_sessions_cons. cbn [snd]. rewrite map_app, IH.
    rewrite tick_session_rooms. unfold active_keys. simpl.
    destruct (isActive s); reflexivity. }
  split; [exact H|]. split.
  - rewrite <- H. rewrite length_map. reflexivity.
  - apply tick_sessions_keys.
Qed.

(** ** Open-ended sessions *)

Section OpenEnded.

Implicit Types (st : State) (s : Session) (sid : string).

Lemma tick_session_open_ended sid now s :
  isActive s = true -> isOpenEnded s = true ->
  let s' := fst (tick_session sid now s) in
  isActive s' = true /\ isOpenEnded s' = true /\
  startTime s' = startTime s /\ calculation s' = calculation s /\
  snd (tick_session sid now s) =
    [EarningsUpdate sid
       (ratePerSecond (calculation s) * elapsed_seconds now s)%float
       (elapsed_seconds now s) VNull true].
Proof.
  intros Ha Ho. unfold tick_session. rewrite Ha, Ho. simpl.
  repeat split; assumption.
Qed.

Lemma status_update_open_ended now s :
  isActive s = true -> isOpenEnded s = true ->
  let s' := status_update now s in
  isActive s' = true /\ isOpenEnded s' = true /\
  startTime s' = startTime s /\ calculation s' = calculation s /\
  currentEarnings s' =
    (ratePerSecond (calculation s) * elapsed_seconds now s)%float /\
  elapsedTime s' = VNum (elapsed_seconds now s) /\
  remainingTime s' = VNull.
Proof.
  intros Ha Ho. unfold status_update. rewrite Ha, Ho. simpl.
  repeat split; assumption.
Qed.

Lemma step_advances_open_ended st op sid s :
  NoDup (map_keys (sessions st)) ->
  map_get sid (sessions st) = Some s ->
  isActive s = true -> isOpenEnded s = true ->
  advances op = true ->
  exists s',
    map_get sid (sessions (fst (step st op))) = Some s' /\
    isActive s' = true /\ isOpenEnded s' = true /\
    startTime s' = startTime s /\ calculation s' = calculation s /\
    completions sid [snd (step st op)] = 0.
Proof.
  intros Hnd Hget Ha Ho Hadv. destruct op; try discriminate.
  - rewrite step_status. cbn [fst snd completions].
    rewrite api_session_status_get, Hget.
    destruct (String.eqb sid sessionId); simpl.
    + destruct (status_update_open_ended now s Ha Ho)
        as (H1 & H2 & H3 & H4 & _).
      eexists. split; [reflexivity|]. repeat split; assumption.
    + exists s. repeat split; assumption.
  - rewrite step_tick. cbn [fst snd completions sessions].
    rewrite tick_sessions_get, Hget. simpl.
    destruct (tick_session_open_ended sid (clock sid) s Ha Ho)
      as (H1 & H2 & H3 & H4 & Hev).
    eexists. split; [reflexivity|]. repeat split; try assumption.
    rewrite (tick_sessions_room _ _ _ _ Hnd Hget), Hev. reflexivity.
Qed.

End OpenEnded.

(** X9.  An open-ended session never completes by itself: through any
    sequence of sweeps and status queries, at any clock readings, it stays
    active, no completion event is sent to its room, and a status query
    made afterwards answers with the accrued earnings
    [ratePerSecond * elapsed], the elapsed seconds, [remainingTime] [null]
    and [isActive] true. *)
Theorem open_ended_session_never_completes (ops : list operation) :
  forall (st : State) (sid : string) (s : Session),
  NoDup (map_keys (sessions st)) ->
  map_get sid (sessions st) = Some s ->
  isActive s = true -> isOpenEnded s = true ->
  forallb advances ops = true ->
  (exists s',
     map_get sid (sessions (fst (run st ops))) = Some s' /\
     isActive s' = true /\ isOpenEnded s' = true) /\
  completions sid (snd (run st ops)) = 0 /\
  forall now : Z,
    snd (api_session_status (fst (run st ops)) sid now) =
    Status (ratePerSecond (calculation s) * elapsed_seconds now s)%float
      (VNum (elapsed_seconds now s)) VNull true true.
Proof.
  induction ops as [|op ops IH]; intros st sid s Hnd Hget Ha Ho Hops.
  - split; [exists s; auto|]. split; [reflexivity|].
    intros now. cbn [run fst]. unfold api_session_status. rewrite Hget.
    cbn [snd].
    destruct (status_update_open_ended now s Ha Ho)
      as (-> & -> & _ & _ & -> & -> & ->).
    reflexivity.
  - simpl in Hops. apply andb_prop in Hops as [Hop Hops].
    destruct (step_advances_open_ended st op sid s Hnd Hget Ha Ho Hop)
      as (s1 & Hget1 & Ha1 & Ho1 & Hst & Hcalc & Hc1).
    assert (Hnd1 : NoDup (map_keys (sessions (fst (step st op)))))
      by (rewrite step_advances_keys by exact Hop; exact Hnd).
    destruct (IH (fst (step st op)) sid s1 Hnd1 Hget1 Ha1 Ho1 Hops)
      as (Hs2 & Hc2 & Hstatus).
    rewrite run_cons. cbn [fst snd].
    split; [exact Hs2|]. split.
    + rewrite completions_cons, Hc1, Hc2. reflexivity.
    + intros now. rewrite Hstatus. unfold elapsed_seconds.
      rewrite Hst, Hcalc. reflexivity.
Qed.

Lemma open_ended_session_never_completes_witness :
  let st := fst (api_start_session initial_state open_ended_body 0 0) in
  let ops := [OpTick (fun _ => 1000%Z); OpStatus "0" 2000;
              OpTick (fun _ => 360000000%Z)] in
  completions "0" (snd (run st ops)) = 0 /\
  snd (api_session_status (fst (run st ops)) "0" 360000000) =
    Status (ratePerSecond (calculateOvertimePayFromRate 100 "normal" 1)
            * 360000)%float
      (VNum 360000) VNull true true.
Proof.
  intros st ops.
  assert (Hget : exists s, map_get "0" (sessions st) = Some s /\
                   isActive s = true /\ isOpenEnded s = true /\
                   startTime s = 0%Z /\
                   calculation s = calculateOvertimePayFromRate 100 "normal" 1)
    by (eexists; repeat split; reflexivity).
  destruct Hget as (s & Hget & Ha & Ho & Hst & Hcalc).
  destruct (open_ended_session_never_completes ops st "0" s
              (NoDup_singleton _) Hget Ha Ho eq_refl) as (_ & Hc & Hstatus).
  split; [exact Hc|]. rewrite Hstatus. unfold elapsed_seconds.
  rewrite Hst, Hcalc. reflexivity.
Defined.

(** ** Stopping and polling *)

Lemma map_set_set (key : string) (s1 s2 : Session) (m : SessionMap) :
  map_set key s2 (map_set key s1 m) = map_set key s2 m.
Proof.
  induction m as [|[k s] m IH]; simpl.
  - rewrite String.eqb_refl. reflexivity.
  - destruct (String.eqb key k) eqn:E; simpl; rewrite E; [reflexivity|].
    rewrite IH. reflexivity.
Qed.

Lemma map_set_same (key : string) (s : Session) (m : SessionMap) :
  map_get key m = Some s -> map_set key s m = m.
Proof.
  induction m as [|[k s'] m IH]; simpl; [discriminate|].
  destruct (String.eqb key k) eqn:E.
  - intros [= ->]. reflexivity.
  - intros H. rewrite IH by exact H. reflexivity.
Qed.

(** X10.  A stop request for an unknown id is answered "Session not
    found" and changes nothing.  For a stored session it answers with the
    session as it leaves it: inactive, ended at the request's time, with
    the seconds since its start as duration; the earnings are not brought
    up to date but stay what the last sweep or status query left (zero if
    there was none); every other session is untouched. *)
Theorem stop_session_effect (st : State) (sid : string) (now : Z) :
  match map_get sid (sessions st) with
  | None => api_stop_session st sid now = (st, NotFound "Session not found")
  | Some s =>
      exists s',
        snd (api_stop_session st sid now) = Stopped s' /\
        map_get sid (sessions (fst (api_stop_session st sid now))) = Some s' /\
        isActive s' = false /\
        endTime s' = Some now /\
        duration s' = VNum (elapsed_seconds now s) /\
        currentEarnings s' = currentEarnings s /\
        elapsedTime s' = elapsedTime s /\
        remainingTime s' = remainingTime s /\
        map_keys (sessions (fst (api_stop_session st sid now))) =
          map_keys (sessions st) /\
        forall key : string, key <> sid ->
          map_get key (sessions (fst (api_stop_session st sid now))) =
          map_get key (sessions st)
  end.
Proof.
  unfold api_stop_session.
  destruct (map_get sid (sessions st)) as [s|] eqn:G; [|reflexivity].
  eexists. split; [reflexivity|]. cbn [fst sessions].
  split; [apply map_get_set_eq|].
  repeat split.
  - apply map_keys_set_present. congruence.
  - intros key Hne. apply map_get_set_ne. exact Hne.
Qed.

Lemma status_update_idempotent (now : Z) (s : Session) :
  status_update now (status_update now s) = status_update now s.
Proof.
  unfold status_update.
  destruct s as [i h o t c st a ce w oe et d el r]; simpl.
  destruct a; [|reflexivity]. unfold elapsed_seconds; simpl.
  destruct oe; simpl; [reflexivity|].
  destruct (_ <? _)%float eqn:E; simpl; rewrite ?E; reflexivity.
Qed.

(** X11.  Polling is idempotent at an instant: a second status query for
    the same session at the same clock reading leaves the store as the
    first one left it and gets the same answer; the answer's fields are
    those of the stored session; and a query for an unknown id is answered
    "Session not found" and changes nothing. *)
Theorem status_query_idempotent (st : State) (sid : string) (now : Z) :
  let once := api_session_status st sid now in
  api_session_status (fst once) sid now = once /\
  match map_get sid (sessions st) with
  | None => once = (st, NotFound "Session not found")
  | Some _ =>
      exists s',
        map_get sid (sessions (fst once)) = Some s' /\
        snd once =
          Status (currentEarnings s') (elapsedTime s') (remainingTime s')
            (isOpenEnded s') (isActive s')
  end.
Proof.
  intros once. subst once. unfold api_session_status.
  destruct (map_get sid (sessions st)) as [s|] eqn:G.
  - cbn [fst snd sessions userOvertimeTracking].
    rewrite map_get_set_eq, status_update_idempotent, map_set_set.
    split; [reflexivity|].
    eexists. split; reflexivity.
  - cbn [fst]. rewrite G. split; reflexivity.
Qed.

(** ** Signs of products and quotients *)

Module FloatSign.

(** Rounding keeps the sign it is given. *)
Lemma binary_round_aux_sign (p e : Z) (s : bool) (m ex : Z) (l : location) :
  match binary_round_aux p e s m ex l with
  | S754_zero s' | S754_infinity s' | S754_finite s' _ _ => s' = s
  | S754_nan => True
  end.
Proof.
  unfold binary_round_aux.
  destruct (shr_fexp p e m ex l) as [mrs' e'].
  destruct (shr_fexp p e _ e' loc_Exact) as [mrs'' e''].
  destruct (shr_m mrs''); try exact I; try reflexivity.
  destruct (Z.leb e'' (Z.sub e p)); reflexivity.
Qed.

Lemma SFmul_not_negative (x y : spec_float) :
  sf_not_negative x -> sf_not_negative y ->
  x <> S754_zero true -> y <> S754_zero true ->
  sf_not_negative (SFmul prec emax x y) /\
  SFmul prec emax x y <> S754_zero true.
Proof.
  destruct x as [sx|sx| |sx mx ex], y as [sy|sy| |sy my ey]; simpl;
    intros Hx Hy Hzx Hzy; subst; try (split; [exact I | discriminate]);
    try (split; [reflexivity | discriminate]).
  - destruct sx, sy; try congruence. split; [exact I | discriminate].
  - destruct sx; try congruence. split; [exact I | discriminate].
  - destruct sy; try congruence. split; [exact I | discriminate].
  - change (xorb false false) with false.
    pose proof (binary_round_aux_sign prec emax false
                  (Zpos (mx * my)) (ex + ey) loc_Exact) as H.
    destruct (binary_round_aux prec emax false _ _ _); simpl;
      subst; split; try exact I; try reflexivity; try discriminate.
Qed.

Lemma SFdiv_not_negative (x y : spec_float) :
  sf_not_negative x -> sf_not_negative y ->
  x <> S754_zero true -> y <> S754_zero true ->
  sf_not_negative (SFdiv prec emax x y).
Proof.
  destruct x as [sx|sx| |sx mx ex], y as [sy|sy| |sy my ey]; simpl;
    intros Hx Hy Hzx Hzy; subst; try exact I; try reflexivity.
  - destruct sy; [congruence | reflexivity].
  - destruct sy; [congruence | reflexivity].
  - destruct (SFdiv_core_binary prec emax (Zpos mx) ex (Zpos my) ey)
      as [[mz ez] lz].
    change (xorb false false) with false.
    pose proof (binary_round_aux_sign prec emax false mz ez lz) as H.
    destruct (binary_round_aux prec emax false _ _ _); simpl;
      subst; try exact I; reflexivity.
Qed.

Lemma mul_not_negative (x y : float) :
  not_negative x -> not_negative y ->
  Prim2SF x <> S754_zero true -> Prim2SF y <> S754_zero true ->
  not_negative (x * y) /\ Prim2SF (x * y)%float <> S754_zero true.
Proof.
  unfold not_negative. rewrite FloatAxioms.mul_spec.
  apply SFmul_not_negative.
Qed.

Lemma div_not_negative (x y : float) :
  not_negative x -> not_negative y ->
  Prim2SF x <> S754_zero true -> Prim2SF y <> S754_zero true ->
  not_negative (x / y).
Proof.
  unfold not_negative. rewrite FloatAxioms.div_spec.
  apply SFdiv_not_negative.
Qed.

(** A number above zero is not negative, and is no zero. *)
Lemma positive_not_negative (x : float) :
  PrimFloat.ltb 0 x = true ->
  not_negative x /\ Prim2SF x <> S754_zero true.
Proof.
  unfold not_negative. rewrite FloatAxioms.ltb_spec. unfold SFltb.
  change (Prim2SF 0) with (S754_zero false).
  destruct (Prim2SF x) as [s|s| |s m e]; simpl; try discriminate.
  - destruct s; [discriminate|]. split; [reflexivity | discriminate].
  - destruct s; [discriminate|]. split; [reflexivity | discriminate].
Qed.

(** A number that is not negative is not below zero. *)
Lemma not_negative_ltb (x : float) :
  not_negative x -> PrimFloat.ltb x 0 = false.
Proof.
  unfold not_negative. rewrite FloatAxioms.ltb_spec. unfold SFltb.
  change (Prim2SF 0) with (S754_zero false).
  destruct (Prim2SF x) as [s|s| |s m e]; simpl; try reflexivity;
    intros ->; reflexivity.
Qed.

End FloatSign.

(** ** Pay is never below zero *)

Lemma lookup_multiplier_not_negative (overtimeType : string) :
  not_negative (multiplier_number (lookup_multiplier overtimeType)) /\
  Prim2SF (multiplier_number (lookup_multiplier overtimeType))
    <> S754_zero true.
Proof.
  unfold lookup_multiplier. simpl.
  repeat match goal with
         | |- context [String.eqb overtimeType ?k] =>
             destruct (String.eqb overtimeType k);
             [vm_compute; split; [reflexivity | discriminate]|]
         end.
  destruct (inherited overtimeType); vm_compute;
    (split; [try reflexivity; exact I | discriminate]).
Qed.

Lemma hours_to_use_positive (hours : value) :
  is_negative hours = false -> (0 <? or_num hours 1)%float = true.
Proof.
  destruct hours as [| |h]; try reflexivity. simpl.
  destruct (truthy_num h) eqn:Ht; [|reflexivity].
  destruct (truthy_sign h Ht) as [(_ & H & _)|(_ & _ & H)]; congruence.
Qed.

Lemma pay_not_negative (rate : float) (type : string) (hours : float) :
  (0 <? rate)%float = true -> (0 <? hours)%float = true ->
  let c := calculateOvertimePayFromRate rate type hours in
  not_negative (totalPay c) /\ not_negative (ratePerSecond c).
Proof.
  intros Hr Hh. unfold calculateOvertimePayFromRate. simpl.
  destruct (FloatSign.positive_not_negative rate Hr) as [Hr1 Hr2].
  destruct (FloatSign.positive_not_negative hours Hh) as [Hh1 Hh2].
  destruct (lookup_multiplier_not_negative type) as [Hm1 Hm2].
  destruct (FloatSign.mul_not_negative _ _ Hr1 Hm1 Hr2 Hm2) as [Hrm1 Hrm2].
  destruct (FloatSign.mul_not_negative _ _ Hrm1 Hh1 Hrm2 Hh2) as [Hp1 Hp2].
  split; [exact Hp1|].
  destruct (FloatSign.positive_not_negative 3600 eq_refl) as [Hs1 Hs2].
  destruct (FloatSign.mul_not_negative _ _ Hh1 Hs1 Hh2 Hs2) as [Hd1 Hd2].
  apply FloatSign.div_not_negative; assumption.
Qed.

(** X12.  No pay the server computes is below zero.  In every calculation
    it answers with, and in the calculation every stored session carries,
    [totalPay] and [ratePerSecond] are not less than zero (they are zero,
    above zero or [NaN]), whatever the type, the rate and the hours that
    passed validation. *)
Theorem pay_is_never_below_zero (ops : list operation) (body : Body) :
  let st := fst (run initial_state ops) in
  (forall c w p,
     api_calculate st body = Calculated c w p ->
     (totalPay c <? 0)%float = false /\
     (ratePerSecond c <? 0)%float = false) /\
  (forall key s,
     map_get key (sessions st) = Some s ->
     (totalPay (calculation s) <? 0)%float = false /\
     (ratePerSecond (calculation s) <? 0)%float = false).
Proof.
  intros st. split.
  - intros c w p Hcalc.
    destruct (api_calculate_cases st body)
      as [[_ H]|[[_ H]|[[_ H]|[Hc (r & t & Hreq & H)]]]];
      rewrite H in Hcalc; try discriminate.
    injection Hcalc as <- _ _.
    destruct Hc as (Hp & _ & _ & _ & Hh).
    apply required_fields_Some in Hreq as (Hr & _).
    rewrite Hr in Hp. simpl in Hp.
    destruct (pay_not_negative r t (or_num (body_hours body) 1) Hp
                (hours_to_use_positive _ Hh)) as [H1 H2].
    split; apply FloatSign.not_negative_ltb; assumption.
  - intros key s Hget.
    pose proof (all_sessions_get _ _ _ _
                  (run_all_sessions creation_consistent
                     creation_consistent_start creation_consistent_stop
                     creation_consistent_status creation_consistent_tick
                     ops initial_state (List.Forall_nil _)) Hget)
      as (_ & Hr & _ & Hh & _ & Hc).
    assert (Hpos : (0 <? or_num (totalHours s) 1)%float = true).
    { destruct Hh as [-> | (h & -> & Hh)]; [reflexivity|].
      simpl. rewrite (FloatFacts.positive_truthy _ Hh). exact Hh. }
    destruct (pay_not_negative _ (overtimeType s) _ Hr Hpos) as [H1 H2].
    rewrite <- Hc in H1, H2.
    split; apply FloatSign.not_negative_ltb; assumption.
Qed.

(** ** The warnings of the validator *)

(** X13.  [validateOvertimeHours] lists its warnings in a fixed order:
    daily limit, weekly limit, yearly limit, sustainability, each at most
    once, so never more than four.  The sustainability warning (hours
    above 8) never comes without the daily-limit warning (hours above 4).
    The result does not depend on the overtime type. *)
Theorem validateOvertimeHours_warning_list
    (tracking : gmap string Tracking) (hours : float) (type userId : string) :
  let v := validateOvertimeHours tracking hours type userId in
  let t := tracking_of tracking userId in
  warnings v =
    ((if (4 <? hours)%float then [WarnDailyLimit] else []) ++
     (if (12 <? weekly t + hours)%float
      then [WarnWeeklyLimit (weekly t) hours (weekly t + hours)%float]
      else []) ++
     (if (100 <? yearly t + hours)%float
      then [WarnYearlyLimit (yearly t) hours (yearly t + hours)%float]
      else []) ++
     (if (8 <? hours)%float then [WarnNotSustainable] else []))%list /\
  length (warnings v) <= 4 /\
  (In WarnNotSustainable (warnings v) -> In WarnDailyLimit (warnings v)) /\
  (In WarnDailyLimit (warnings v) <-> (4 <? hours)%float = true) /\
  (In WarnNotSustainable (warnings v) <-> (8 <? hours)%float = true) /\
  forall type' : string,
    validateOvertimeHours tracking hours type' userId = v.
Proof.
  intros v t.
  assert (Hw : warnings v =
    ((if (4 <? hours)%float then [WarnDailyLimit] else []) ++
     (if (12 <? weekly t + hours)%float
      then [WarnWeeklyLimit (weekly t) hours (weekly t + hours)%float]
      else []) ++
     (if (100 <? yearly t + hours)%float
      then [WarnYearlyLimit (yearly t) hours (yearly t + hours)%float]
      else []) ++
     (if (8 <? hours)%float then [WarnNotSustainable] else []))%list).
  { subst v t. unfold validateOvertimeHours. simpl.
    change OVERTIME_LIMITS.MAX_HOURS_PER_DAY with 4%float.
    change OVERTIME_LIMITS.MAX_HOURS_PER_WEEK with 12%float.
    change OVERTIME_LIMITS.MAX_HOURS_PER_YEAR with 100%float.
    destruct (4 <? hours)%float, (12 <? _)%float, (100 <? _)%float,
      (8 <? hours)%float; reflexivity. }
  assert (Hd : In WarnDailyLimit (warnings v) <-> (4 <? hours)%float = true).
  { rewrite Hw.
    destruct (4 <? hours)%float, (12 <? _)%float, (100 <? _)%float,
      (8 <? hours)%float; simpl; split; intros H; try reflexivity;
      try tauto; try discriminate;
      repeat (destruct H as [H|H]; try discriminate H); contradiction. }
  assert (Hs : In WarnNotSustainable (warnings v) <-> (8 <? hours)%float = true).
  { rewrite Hw.
    destruct (4 <? hours)%float, (12 <? _)%float, (100 <? _)%float,
      (8 <? hours)%float; simpl; split; intros H; try reflexivity;
      try tauto; try discriminate;
      repeat (destruct H as [H|H]; try discriminate H); contradiction. }
  split; [exact Hw|]. split.
  { rewrite Hw.
    destruct (4 <? hours)%float, (12 <? _)%float, (100 <? _)%float,
      (8 <? hours)%float; simpl; lia. }
  split.
  { intros H. apply Hd. apply FloatOrder.above_8_above_4. apply Hs. exact H. }
  split; [exact Hd|]. split; [exact Hs|].
  intros type'. reflexivity.
Qed.

(** ** Types that name an inherited property *)

Section InheritedTypes.

Lemma mul_nan_r (x : float) : Prim2SF (x * PrimFloat.nan)%float = S754_nan.
Proof.
  rewrite FloatAxioms.mul_spec. change (Prim2SF PrimFloat.nan) with S754_nan.
  unfold SF64mul, SFmul. destruct (Prim2SF x); reflexivity.
Qed.

Lemma mul_nan_l (x y : float) :
  Prim2SF x = S754_nan -> Prim2SF (x * y)%float = S754_nan.
Proof. intros H. rewrite FloatAxioms.mul_spec, H. reflexivity. Qed.

Lemma div_nan_l (x y : float) :
  Prim2SF x = S754_nan -> Prim2SF (x / y)%float = S754_nan.
Proof. intros H. rewrite FloatAxioms.div_spec, H. reflexivity. Qed.

Lemma eqb_nan_l (x y : float) :
  Prim2SF x = S754_nan -> PrimFloat.eqb x y = false.
Proof. intros H. rewrite FloatAxioms.eqb_spec, H. reflexivity. Qed.

(** The lookup finds the inherited property under each of its names. *)
Lemma lookup_multiplier_inherited (overtimeType : string) :
  inherited overtimeType = true ->
  lookup_multiplier overtimeType = MBuiltin /\
  spec_multiplier overtimeType = 1.5%float.
Proof.
  unfold inherited, Object_prototype_properties. cbn [existsb].
  intros H.
  repeat (apply orb_prop in H as [H|H];
          [apply String.eqb_eq in H; subst overtimeType;
           split; vm_compute; reflexivity|]).
  discriminate H.
Qed.

End InheritedTypes.

(** C5, a defect of the code.  [OVERTIME_MULTIPLIERS[overtimeType] || 1.5]
    is written to give 1.5 for every type the table does not list, which
    is what the claim says, but for a type that names a property the
    table inherits from [Object.prototype], such as [constructor], the
    lookup finds that property: the multiplier is an object, not the 1.5
    the claim gives such a type, and for every rate and hours [totalPay]
    and [ratePerSecond] are [NaN], so [totalPay] does not equal
    [hourlyRate * 1.5 * hours]. *)
Theorem calculateOvertimePayFromRate_inherited_type
    (hourlyRate : float) (overtimeType : string) (hours : float) :
  inherited overtimeType = true ->
  let c := calculateOvertimePayFromRate hourlyRate overtimeType hours in
  spec_multiplier overtimeType = 1.5%float /\
  multiplier c = MBuiltin /\
  PrimFloat.is_nan (totalPay c) = true /\
  PrimFloat.is_nan (ratePerSecond c) = true /\
  PrimFloat.eqb (totalPay c)
    (hourlyRate * spec_multiplier overtimeType * hours) = false /\
  PrimFloat.eqb (ratePerSecond c * hours * 3600) (totalPay c) = false.
Proof.
  intros Hinh c. subst c.
  destruct (lookup_multiplier_inherited overtimeType Hinh) as [Hm Hspec].
  unfold calculateOvertimePayFromRate. cbn [multiplier totalPay ratePerSecond].
  rewrite Hm. cbn [multiplier_number].
  assert (Hpay : Prim2SF (hourlyRate * PrimFloat.nan * hours)%float
                 = S754_nan)
    by (apply mul_nan_l, mul_nan_r).
  assert (Hrate : Prim2SF (hourlyRate * PrimFloat.nan * hours
                           / (hours * 3600))%float = S754_nan)
    by (apply div_nan_l, Hpay).
  split; [exact Hspec|]. split; [reflexivity|].
  split; [apply FloatOrder.is_nan_spec, Hpay|].
  split; [apply FloatOrder.is_nan_spec, Hrate|].
  split; [apply eqb_nan_l, Hpay|].
  apply eqb_nan_l. apply mul_nan_l, mul_nan_l. exact Hrate.
Qed.

(** The request [{ hourlyRate: 100, overtimeType: "constructor", hours: 5 }]:
    the claim gives it the multiplier 1.5 and the pay 750, the code an
    object as multiplier and [NaN] as pay. *)
Lemma calculateOvertimePayFromRate_inherited_type_witness :
  let c := calculateOvertimePayFromRate 100 "constructor" 5 in
  (100 * spec_multiplier "constructor" * 5)%float = 750%float /\
  multiplier c = MBuiltin /\
  PrimFloat.is_nan (totalPay c) = true /\
  PrimFloat.eqb (totalPay c) 750 = false /\
  api_calculate initial_state
    (mkBody (VNum 100) (Some "constructor") (VNum 5)) =
    Calculated c [WarnDailyLimit] false.
Proof.
  intros c.
  destruct (calculateOvertimePayFromRate_inherited_type 100 "constructor" 5
              eq_refl) as (Hspec & Hm & Hnan & _ & Hneq & _).
  split; [vm_compute; reflexivity|].
  split; [exact Hm|]. split; [exact Hnan|].
  split; [rewrite Hspec in Hneq; exact Hneq|].
  vm_compute. reflexivity.
Defined.
